(** * Book-stall reservation system: the reservation handlers of the two portals

    A shallow embedding of the reservation logic of the employee portal
    (the [Reservations] page) and of the vendor portal (the [Stalls] and
    [Dashboard] pages), together with the approval step of the allocation
    engine that the pages call over HTTP.

    The pages are React components.  A handler is an async function that
    closes over the state of the render it was created in, talks to the
    user through [window.confirm] / [window.prompt], to the server through
    the API wrappers, and writes the component state through the setters.
    It is modelled as a computation over the component state that records
    every outward effect in a trace. *)

From Stdlib Require Import ZArith List String Bool Lia.
Import ListNotations.

Local Open Scope string_scope.
Local Open Scope list_scope.

(** ** JavaScript idioms used by the pages *)

Module JS.

(** [a || b] on strings: the empty string is falsy. *)
Definition or_else (a b : string) : string :=
  if String.eqb a "" then b else a.

(** [x?.y?.z || b]: an absent value is [undefined], which is falsy. *)
Definition opt_or_else (a : option string) (b : string) : string :=
  match a with
  | Some s => or_else s b
  | None => b
  end.

(** Interpolation [`${x}`] of a value that may be [undefined]. *)
Definition interpolate (a : option string) : string :=
  match a with
  | Some s => s
  | None => "undefined"
  end.

(** [a === b] for a state cell holding [null] or a number, against a number. *)
Definition cell_is (c : option Z) (n : Z) : bool :=
  match c with
  | Some m => Z.eqb m n
  | None => false
  end.

End JS.

(** ** Data, as the server's JSON is read by the pages *)

Module Stall.
Record t := mk {
  id : Z;
  name : string;
  size : string;
  dimensions : string;
  price : Z;
  is_reserved : bool
}.
End Stall.

Module Vendor.
Record t := mk {
  business_name : string;
  email : string;
  phone : string;
  business_type : string
}.
End Vendor.

Module Reservation.
Record t := mk {
  id : Z;
  stall_id : Z;
  status : string;
  notes : string;
  qr_data : string;
  confirmed_at : string;
  stall : option Stall.t;
  user : option Vendor.t
}.

(** The object spread [{ ...r, status: s }]. *)
Definition with_status (r : t) (s : string) : t :=
  mk (id r) (stall_id r) s (notes r) (qr_data r) (confirmed_at r)
     (stall r) (user r).

(** [reservation.stall?.name] and [reservation.user?.business_name]. *)
Definition stall_name (r : t) : option string := option_map Stall.name (stall r).
Definition user_business_name (r : t) : option string :=
  option_map Vendor.business_name (user r).
End Reservation.

(** ** Effects *)

(** The requests issued by the API wrappers ([api.js] of each portal). *)
Inductive ApiRequest : Type :=
| EmployeeCancelReservation (reservationId : Z)
    (* POST /employee/reservations/:id/cancel *)
| EmployeeApproveReservation (reservationId : Z)
    (* POST /employee/reservations/:id/approve *)
| EmployeeRejectReservation (reservationId : Z) (reason : string)
    (* POST /employee/reservations/:id/reject { reason } *)
| CreateReservation (stallId : Z) (notes : string)
    (* POST /reservations { stall_id, notes } *)
| CancelReservation (id : Z)
    (* POST /reservations/:id/cancel *).

(** What a handler does to the outside, in order. *)
Inductive Effect : Type :=
| WindowConfirm (message : string)
| WindowPrompt (message default : string)
| Api (request : ApiRequest)
| ToastSuccess (message : string)
| ToastError (message : string)
| ConsoleError (label : string)
| Spawn (fn : string)   (* a call to an async function that is not awaited *).

(** A thrown value.  The handlers only read [error.response?.data?.error]. *)
Record JsError := { response_data_error : option string }.

(** The outside of a handler: the user's answers and the server's verdicts.
    [api w q = None] means the promise of request [q] resolves. *)
Record World := {
  window_confirm : string -> bool;
  window_prompt : string -> string -> option string;
  api : ApiRequest -> option JsError
}.

Inductive Completion (A : Type) : Type :=
| Normal (a : A)
| Throw (e : JsError).
Arguments Normal {A} a.
Arguments Throw {A} e.

Section Handler.
Context {St : Type}.

(** A computation over the live component state [St]. *)
Definition M (A : Type) : Type := St -> Completion A * St * list Effect.

Definition ret {A} (a : A) : M A := fun s => (Normal a, s, []).

Definition bind {A B} (m : M A) (k : A -> M B) : M B :=
  fun s =>
    match m s with
    | (Normal a, s1, t1) =>
        let '(c, s2, t2) := k a s1 in (c, s2, t1 ++ t2)
    | (Throw e, s1, t1) => (Throw e, s1, t1)
    end.

Definition emit (e : Effect) : M unit := fun s => (Normal tt, s, [e]).

Definition throw {A} (e : JsError) : M A := fun s => (Throw e, s, []).

(** A state setter: [setX(v)]. *)
Definition set (f : St -> St) : M unit := fun s => (Normal tt, f s, []).

(** [try { body } catch (error) { handler } finally { cleanup }]. *)
Definition try_catch_finally (body : M unit) (handler : JsError -> M unit)
    (cleanup : M unit) : M unit :=
  fun s =>
    let '(c1, s1, t1) := body s in
    let '(c2, s2, t2) :=
      match c1 with
      | Normal a => (Normal a, s1, [])
      | Throw e => handler e s1
      end in
    let '(c3, s3, t3) := cleanup s2 in
    (match c3 with Normal _ => c2 | Throw e => Throw e end,
     s3, t1 ++ t2 ++ t3).

(** [await] of an API promise. *)
Definition await_api (w : World) (q : ApiRequest) : M unit :=
  fun s =>
    (match api w q with None => Normal tt | Some e => Throw e end, s, [Api q]).

Definition confirm (w : World) (message : string) : M bool :=
  fun s => (Normal (window_confirm w message), s, [WindowConfirm message]).

Definition prompt (w : World) (message default : string) : M (option string) :=
  fun s => (Normal (window_prompt w message default), s,
            [WindowPrompt message default]).

(** The state and the trace a run ends with. *)
Definition final {A} (o : Completion A * St * list Effect) : St := snd (fst o).
Definition effects {A} (o : Completion A * St * list Effect) : list Effect :=
  snd o.

End Handler.

Declare Scope handler_scope.
Delimit Scope handler_scope with handler.
Notation "x <- m ;; k" := (bind m (fun x => k))
  (at level 61, m at next level, right associativity) : handler_scope.
Notation "m ;; k" := (bind m (fun _ => k))
  (at level 61, right associativity) : handler_scope.

(** The requests in a trace. *)
Fixpoint requests (t : list Effect) : list ApiRequest :=
  match t with
  | [] => []
  | Api q :: t' => q :: requests t'
  | _ :: t' => requests t'
  end.

(** ** Employee portal: the [Reservations] page *)

Module Reservations.
Local Open Scope handler_scope.

Record State := mkState {
  reservations : list Reservation.t;
  filteredReservations : list Reservation.t;
  statusFilter : string;
  expandedReservation : option Z;
  cancelling : option Z
}.

Definition setReservations (v : list Reservation.t) : M unit :=
  set (fun s => mkState v (filteredReservations s) (statusFilter s)
                        (expandedReservation s) (cancelling s)).
Definition setFilteredReservations (v : list Reservation.t) : M unit :=
  set (fun s => mkState (reservations s) v (statusFilter s)
                        (expandedReservation s) (cancelling s)).
Definition setExpandedReservation (v : option Z) : M unit :=
  set (fun s => mkState (reservations s) (filteredReservations s)
                        (statusFilter s) v (cancelling s)).
Definition setCancelling (v : option Z) : M unit :=
  set (fun s => mkState (reservations s) (filteredReservations s)
                        (statusFilter s) (expandedReservation s) v).

(** [filterReservations], the effect run when [reservations] or
    [statusFilter] changed; [r] is the render it closes over. *)
Definition filterReservations (r : State) : M unit :=
  if String.eqb (statusFilter r) "all"
  then setFilteredReservations (reservations r)
  else setFilteredReservations
         (filter (fun x => String.eqb (Reservation.status x) (statusFilter r))
                 (reservations r)).

(** [reservations.filter(r => r.id !== reservation.id)] *)
Definition without (reservation : Reservation.t) (l : list Reservation.t) :=
  filter (fun r => negb (Z.eqb (Reservation.id r) (Reservation.id reservation))) l.

(** [reservations.map(r => r.id === reservation.id
                             ? { ...r, status: 'confirmed' } : r)] *)
Definition confirmed_in (reservation : Reservation.t) (l : list Reservation.t) :=
  map (fun r => if Z.eqb (Reservation.id r) (Reservation.id reservation)
                then Reservation.with_status r "confirmed" else r) l.

(** The template literals shown by the dialogs. *)
Definition cancel_question (reservation : Reservation.t) : string :=
  "Cancel reservation for Stall "
  ++ JS.interpolate (Reservation.stall_name reservation)
  ++ " ("
  ++ JS.interpolate (Reservation.user_business_name reservation)
  ++ ")?".

Definition approve_question (reservation : Reservation.t) : string :=
  "Approve reservation for Stall "
  ++ JS.interpolate (Reservation.stall_name reservation)
  ++ " ("
  ++ JS.interpolate (Reservation.user_business_name reservation)
  ++ ")?".

Definition newline : string := String (Ascii.ascii_of_nat 10) EmptyString.

Definition reject_question (reservation : Reservation.t) : string :=
  "Reject reservation for Stall "
  ++ JS.interpolate (Reservation.stall_name reservation)
  ++ "?" ++ newline ++ newline ++ "Optional reason:".

Definition handleCancelReservation (w : World) (r : State)
    (reservation : Reservation.t) : M unit :=
  ok <- confirm w (cancel_question reservation) ;;
  if negb ok then ret tt else
  try_catch_finally
    (setCancelling (Some (Reservation.id reservation)) ;;
     await_api w (EmployeeCancelReservation (Reservation.id reservation)) ;;
     emit (ToastSuccess "Reservation cancelled successfully. Email sent to vendor.") ;;
     (* Remove from local state *)
     setReservations (without reservation (reservations r)) ;;
     setExpandedReservation None)
    (fun error =>
       emit (ConsoleError "Cancel error:") ;;
       emit (ToastError (JS.opt_or_else (response_data_error error)
                                        "Failed to cancel reservation")))
    (setCancelling None).

Definition handleApproveReservation (w : World) (r : State)
    (reservation : Reservation.t) : M unit :=
  ok <- confirm w (approve_question reservation) ;;
  if negb ok then ret tt else
  try_catch_finally
    (setCancelling (Some (Reservation.id reservation)) ;;
     await_api w (EmployeeApproveReservation (Reservation.id reservation)) ;;
     emit (ToastSuccess "Reservation approved! Confirmation email sent to vendor.") ;;
     (* Update the reservation status in local state *)
     setReservations (confirmed_in reservation (reservations r)) ;;
     setExpandedReservation None)
    (fun error =>
       emit (ConsoleError "Approval error:") ;;
       emit (ToastError (JS.opt_or_else (response_data_error error)
                                        "Failed to approve reservation")))
    (setCancelling None).

Definition handleRejectReservation (w : World) (r : State)
    (reservation : Reservation.t) : M unit :=
  reason <- prompt w (reject_question reservation) "" ;;
  match reason with
  | None => ret tt
  | Some reason =>
      try_catch_finally
        (setCancelling (Some (Reservation.id reservation)) ;;
         await_api w (EmployeeRejectReservation (Reservation.id reservation)
                        (JS.or_else reason "No reason provided")) ;;
         emit (ToastSuccess "Reservation rejected. Notification sent to vendor.") ;;
         (* Remove from local state *)
         setReservations (without reservation (reservations r)) ;;
         setExpandedReservation None)
        (fun error =>
           emit (ConsoleError "Rejection error:") ;;
           emit (ToastError (JS.opt_or_else (response_data_error error)
                                            "Failed to reject reservation")))
        (setCancelling None)
  end.

(** The buttons of the expanded panel of one reservation. *)
Inductive Button : Type :=
| ApproveRequest
| RejectRequest
| CancelReservationButton.

Definition onClick (w : World) (r : State) (b : Button)
    (res : Reservation.t) : M unit :=
  match b with
  | ApproveRequest => handleApproveReservation w r res
  | RejectRequest => handleRejectReservation w r res
  | CancelReservationButton => handleCancelReservation w r res
  end.

(** [{res.status === 'pending' && (...)}] followed by
    [{res.status === 'confirmed' && (...)}]. *)
Definition buttons (res : Reservation.t) : list Button :=
  (if String.eqb (Reservation.status res) "pending"
   then [ApproveRequest; RejectRequest] else [])
  ++
  (if String.eqb (Reservation.status res) "confirmed"
   then [CancelReservationButton] else []).

(** The panel is rendered under [expandedReservation === res.id]. *)
Definition panel (r : State) (res : Reservation.t) : list Button :=
  if JS.cell_is (expandedReservation r) (Reservation.id res)
  then buttons res else [].

(** A click on a button of render [r]: the handler closes over [r] and
    runs on the live state, which is [r] at the time of the click. *)
Definition click (w : World) (r : State) (b : Button) (res : Reservation.t) :=
  onClick w r b res r.

End Reservations.

(** ** Vendor portal: the [Stalls] page *)

Module Stalls.
Local Open Scope handler_scope.

Record State := mkState {
  stalls : list Stall.t;
  filteredStalls : list Stall.t;
  selectedSize : string;
  selectedStall : option Stall.t;
  showModal : bool;
  userReservations : list Reservation.t
}.

Definition setSelectedStall (v : option Stall.t) : M unit :=
  set (fun s => mkState (stalls s) (filteredStalls s) (selectedSize s) v
                        (showModal s) (userReservations s)).
Definition setShowModal (v : bool) : M unit :=
  set (fun s => mkState (stalls s) (filteredStalls s) (selectedSize s)
                        (selectedStall s) v (userReservations s)).

(** [userReservations.some(res => res.stall_id === stall.id
                                   && res.status === 'confirmed')] *)
Definition holds_confirmed (l : list Reservation.t) (stall : Stall.t) : bool :=
  existsb (fun res => Z.eqb (Reservation.stall_id res) (Stall.id stall)
                      && String.eqb (Reservation.status res) "confirmed") l.

(** [userReservations.filter(r => r.status === 'confirmed').length] *)
Definition confirmed_count (l : list Reservation.t) : nat :=
  List.length (filter (fun r => String.eqb (Reservation.status r) "confirmed") l).

Definition handleSelectStall (r : State) (stall : Stall.t) : M unit :=
  let reserved := holds_confirmed (userReservations r) stall in
  if Stall.is_reserved stall && negb reserved then
    emit (ToastError "This stall is already reserved")
  else if reserved then
    emit (ToastError "You have already reserved this stall")
  else if Nat.leb 3 (confirmed_count (userReservations r)) then
    emit (ToastError "Maximum 3 stalls per business allowed")
  else
    setSelectedStall (Some stall) ;;
    setShowModal true.

(** The modal's [onConfirm].  [selectedStall.id] on [null] throws a
    TypeError inside the [try], which carries no [response]. *)
Definition handleConfirmReservation (w : World) (r : State)
    (notes : string) : M unit :=
  try_catch_finally
    (stallId <- match selectedStall r with
                | Some st => ret (Stall.id st)
                | None => throw {| response_data_error := None |}
                end ;;
     await_api w (CreateReservation stallId notes) ;;
     emit (ToastSuccess "Stall reserved successfully! Check your email.") ;;
     setShowModal false ;;
     emit (Spawn "fetchStalls") ;;
     emit (Spawn "fetchUserReservations"))
    (fun error =>
       emit (ToastError (JS.opt_or_else (response_data_error error)
                                        "Reservation failed")))
    (ret tt).

(** The card of the grid: [onClick={() => !stall.is_reserved
                                          && handleSelectStall(stall)}]. *)
Definition card_onClick (r : State) (stall : Stall.t) : M unit :=
  if negb (Stall.is_reserved stall) then handleSelectStall r stall else ret tt.

(** The two ways a stall is selected in a render [r]: through the stall
    map, which is handed [handleSelectStall] itself, or through the card. *)
Inductive Gesture : Type := OnMap | OnCard.

Definition select (g : Gesture) (r : State) (stall : Stall.t) :=
  match g with
  | OnMap => handleSelectStall r stall r
  | OnCard => card_onClick r stall r
  end.

(** [{showModal && <ReservationModal onConfirm={handleConfirmReservation} />}] *)
Definition modal_open (r : State) : bool := showModal r.

End Stalls.

(** ** Vendor portal: the [Dashboard] page *)

Module Dashboard.
Local Open Scope handler_scope.

Record State := mkState {
  reservations : list Reservation.t;
  loading : bool;
  expandedReservation : option Z
}.

Definition cancel_question (reservation : Reservation.t) : string :=
  "Are you sure you want to cancel the reservation for Stall "
  ++ JS.interpolate (Reservation.stall_name reservation)
  ++ "?".

Definition setLoading (v : bool) : M unit :=
  set (fun s => mkState (reservations s) v (expandedReservation s)).

(** The handler refreshes through [fetchData()], which it does not await:
    the call runs up to its first [await], that is [setLoading(true)] and
    the start of the three reads, before the handler returns; the rest of
    [fetchData] is the spawned continuation. *)
Definition handleCancelReservation (w : World) (r : State)
    (reservation : Reservation.t) : M (St := State) unit :=
  ok <- confirm w (cancel_question reservation) ;;
  if negb ok then ret tt else
  try_catch_finally
    (await_api w (CancelReservation (Reservation.id reservation)) ;;
     emit (ToastSuccess "Reservation cancelled successfully") ;;
     setLoading true ;;
     emit (Spawn "fetchData"))
    (fun error =>
       emit (ToastError (JS.opt_or_else (response_data_error error)
                                        "Failed to cancel reservation")))
    (ret tt).

(** What the expanded content of a reservation shows. *)
Inductive Element : Type :=
| AwaitingApproval
| CancelRequestButton
| QRCodeSection (value : string)
| DownloadQRButton
| CancelBookingButton
| ImportantInfo
| CancelledNotice.

(** The three-way branch on [res.status]. *)
Definition status_view (res : Reservation.t) : list Element :=
  if String.eqb (Reservation.status res) "pending" then
    [AwaitingApproval; CancelRequestButton]
  else if String.eqb (Reservation.status res) "confirmed" then
    [QRCodeSection (Reservation.qr_data res);
     DownloadQRButton; CancelBookingButton; ImportantInfo]
  else
    [CancelledNotice].

(** The content is rendered under [expandedReservation === res.id]. *)
Definition expanded_content (r : State) (res : Reservation.t) : list Element :=
  if JS.cell_is (expandedReservation r) (Reservation.id res)
  then status_view res else [].

(** The buttons wired to [handleCancelReservation]. *)
Definition cancels (e : Element) : bool :=
  match e with
  | CancelRequestButton | CancelBookingButton => true
  | _ => false
  end.

Definition is_qr (e : Element) : bool :=
  match e with
  | QRCodeSection _ => true
  | _ => false
  end.

(** [onClick] of the elements that have one; [downloadQR] only touches
    the DOM. *)
Definition onClick (w : World) (r : State) (e : Element)
    (res : Reservation.t) : M (St := State) unit :=
  match e with
  | CancelRequestButton | CancelBookingButton => handleCancelReservation w r res
  | DownloadQRButton => emit (Spawn "downloadQR")
  | _ => ret tt
  end.

End Dashboard.

(** ** The allocation engine behind the approve endpoint *)

Module Engine.

(** Modelled from the spec: the server side of
    [POST /employee/reservations/:id/approve] is not part of the
    front-end sources; the states are those of the state machine of
    section 4.3. *)
Inductive Status : Type := Pending | Confirmed | Rejected | Cancelled.

(** Modelled from the spec: a ledger record of section 3 (identifier,
    one vendor, one stall, status, note, credential token, optional
    rejection reason); the ledger itself is absent from the sources. *)
Record Entry := mkEntry {
  id : Z;
  vendor : Z;
  stall : Z;
  status : Status;
  note : string;
  token : option string;
  reason : option string
}.

Definition Ledger := list Entry.

(** Modelled from the spec: the error taxonomy of section 7, absent from
    the sources. *)
Inductive Error : Type :=
| NotFound
| StallUnavailable
| ConflictError
| InvalidTransition
| CapacityExceeded.

(** Modelled from the spec: the events emitted by the committed
    transitions (section 6), absent from the sources. *)
Inductive Event : Type :=
| ReservationConfirmed (reservation vendor stall : Z)
| ReservationRejected (reservation vendor stall : Z) (reason : string)
| ReservationCancelled (reservation vendor stall : Z).

(** Modelled from the spec: an active reservation is one in status
    Pending or Confirmed (glossary); the engine is absent from the
    sources. *)
Definition active (s : Status) : bool :=
  match s with
  | Pending | Confirmed => true
  | Rejected | Cancelled => false
  end.

Definition is_confirmed (s : Status) : bool :=
  match s with
  | Confirmed => true
  | _ => false
  end.

(** Modelled from the spec: the ledger's [get(id)] of section 4.2, absent
    from the sources. *)
Definition get (L : Ledger) (rid : Z) : option Entry :=
  find (fun e => Z.eqb (id e) rid) L.

(** Modelled from the spec: the vendor's current Confirmed count of
    invariant I2, absent from the sources. *)
Definition confirmed_count (L : Ledger) (v : Z) : nat :=
  List.length (filter (fun e => Z.eqb (vendor e) v && is_confirmed (status e)) L).

(** Modelled from the spec: the re-check of invariant I1 at approval, "no
    other active reservation grabbed the same stall"; absent from the
    sources. *)
Definition stall_taken_by_other (L : Ledger) (e : Entry) : bool :=
  existsb (fun x => negb (Z.eqb (id x) (id e))
                    && Z.eqb (stall x) (stall e)
                    && active (status x)) L.

Section WithIssuer.
(** The credential issuer of section 4.4, kept abstract. *)
Variable issue : Z -> string.

(** Modelled from the spec: the write of a committed approval, status
    Confirmed and the credential token issued; absent from the
    sources. *)
Definition confirm_entry (rid : Z) (e : Entry) : Entry :=
  if Z.eqb (id e) rid
  then mkEntry (id e) (vendor e) (stall e) Confirmed (note e)
               (Some (issue (id e))) (reason e)
  else e.

(** Modelled from the spec: [approve(reservationId, actor=staff)] of
    section 4.3, the server-side function that decides an approval and
    that is absent from the sources.  Preconditions in the order the
    spec lists them: the reservation exists, it is Pending, I1 still
    holds, the vendor's Confirmed count is below 3; a failure leaves
    the ledger as it was. *)
Definition approve (L : Ledger) (rid : Z) : Ledger * (Error + Event) :=
  match get L rid with
  | None => (L, inl NotFound)
  | Some e =>
      match status e with
      | Pending =>
          if stall_taken_by_other L e then (L, inl ConflictError)
          else if Nat.leb 3 (confirmed_count L (vendor e))
               then (L, inl CapacityExceeded)
               else (map (confirm_entry rid) L,
                     inr (ReservationConfirmed rid (vendor e) (stall e)))
      | _ => (L, inl InvalidTransition)
      end
  end.

(** The collaborator layer's user-facing message for an engine error,
    kept abstract. *)
Variable describe : Error -> option string.

(** Modelled from the spec: the approve endpoint of section 6 answers
    from the engine; the promise resolves when the transition commits
    and is rejected with the mapped message otherwise.  The endpoint is
    absent from the sources. *)
Definition approve_endpoint (L : Ledger) (rid : Z) : option JsError :=
  match snd (approve L rid) with
  | inr _ => None
  | inl err => Some {| response_data_error := describe err |}
  end.

End WithIssuer.


(** Modelled from the spec: the write of the ledger's [transition] of
    section 4.2, which changes the status of the record (and records the
    rejection reason) and removes nothing; absent from the sources. *)
Definition moved (rid : Z) (s : Status) (why : option string) (e : Entry) : Entry :=
  if Z.eqb (id e) rid
  then mkEntry (id e) (vendor e) (stall e) s (note e) (token e)
               (match why with Some r => Some r | None => reason e end)
  else e.

(** Modelled from the spec: [cancel(reservationId, actor=staff)] of section
    4.3, from Pending or Confirmed to Cancelled; the token of a Confirmed
    reservation is retained for audit; any other source state is an
    invalid transition.  The server-side function is absent from the
    sources. *)
Definition cancel (L : Ledger) (rid : Z) : Ledger * (Error + Event) :=
  match get L rid with
  | None => (L, inl NotFound)
  | Some e =>
      if active (status e)
      then (map (moved rid Cancelled None) L,
            inr (ReservationCancelled rid (vendor e) (stall e)))
      else (L, inl InvalidTransition)
  end.

(** Modelled from the spec: [reject(reservationId, actor=staff, reason)] of
    section 4.3, from Pending to Rejected, always permitted while Pending,
    the reason defaulting to "No reason provided" when omitted.  The
    server-side function is absent from the sources. *)
Definition reject (L : Ledger) (rid : Z) (why : option string)
    : Ledger * (Error + Event) :=
  match get L rid with
  | None => (L, inl NotFound)
  | Some e =>
      match status e with
      | Pending =>
          let r := match why with Some r => r | None => "No reason provided" end in
          (map (moved rid Rejected (Some r)) L,
           inr (ReservationRejected rid (vendor e) (stall e) r))
      | _ => (L, inl InvalidTransition)
      end
  end.

(** Modelled from the spec: the cancel and the reject endpoints of section
    6 answer from the engine, as the approve endpoint does; they are
    absent from the sources. *)
Definition answer (describe : Error -> option string)
    (out : Ledger * (Error + Event)) : option JsError :=
  match snd out with
  | inr _ => None
  | inl err => Some {| response_data_error := describe err |}
  end.

Definition cancel_endpoint (describe : Error -> option string)
    (L : Ledger) (rid : Z) : option JsError :=
  answer describe (cancel L rid).

Definition reject_endpoint (describe : Error -> option string)
    (L : Ledger) (rid : Z) (why : string) : option JsError :=
  answer describe (reject L rid (Some why)).

End Engine.

(** ** Concrete pages and ledgers used in the examples *)

Module Examples.
Local Open Scope Z_scope.

Definition res (i st : Z) (status : string) : Reservation.t :=
  Reservation.mk i st status "" "" "" None None.

Definition stall (i : Z) (reserved : bool) : Stall.t :=
  Stall.mk i "A1" "small" "3x3" 5000 reserved.

(** Everybody says yes, nobody types a reason, the server accepts. *)
Definition agreeable : World :=
  {| window_confirm := fun _ => true;
     window_prompt := fun _ d => Some d;
     api := fun _ => None |}.

(** The staff member dismisses the rejection prompt. *)
Definition dismissive : World :=
  {| window_confirm := fun _ => true;
     window_prompt := fun _ _ => None;
     api := fun _ => None |}.

(** The staff member types a reason. *)
Definition outspoken : World :=
  {| window_confirm := fun _ => true;
     window_prompt := fun _ _ => Some "duplicate";
     api := fun _ => None |}.

Definition staff_page : Reservations.State :=
  Reservations.mkState
    [res 1 10 "confirmed"; res 2 11 "pending"; res 3 12 "cancelled"]
    [res 1 10 "confirmed"; res 2 11 "pending"; res 3 12 "cancelled"]
    "all" (Some 2) None.

(** A vendor holding three confirmed stalls. *)
Definition full_vendor : Stalls.State :=
  Stalls.mkState
    [stall 1 true; stall 2 true; stall 3 true; stall 4 true; stall 5 false]
    [stall 1 true; stall 2 true; stall 3 true; stall 4 true; stall 5 false]
    "all" None false
    [res 1 1 "confirmed"; res 2 2 "confirmed"; res 3 3 "confirmed"].

(** A vendor with no reservation, facing a stall taken by someone else. *)
Definition new_vendor : Stalls.State :=
  Stalls.mkState [stall 4 true] [stall 4 true] "all" None false [].

Definition vendor_page : Dashboard.State :=
  Dashboard.mkState [res 2 11 "pending"] false (Some 2).

Definition entry (i v st : Z) (s : Engine.Status) : Engine.Entry :=
  Engine.mkEntry i v st s "" None None.

(** Vendor 7 holds three Confirmed reservations and requests a fourth. *)
Definition full_ledger : Engine.Ledger :=
  [entry 1 7 10 Engine.Confirmed; entry 2 7 11 Engine.Confirmed;
   entry 3 7 12 Engine.Confirmed; entry 4 7 13 Engine.Pending].

Definition issue (i : Z) : string := "token".
Definition describe (e : Engine.Error) : option string :=
  match e with
  | Engine.CapacityExceeded => Some "Maximum 3 stalls per business allowed"
  | _ => None
  end.

(** A world whose approve endpoint is the engine over [full_ledger]. *)
Definition served : World :=
  {| window_confirm := fun _ => true;
     window_prompt := fun _ d => Some d;
     api := fun q =>
       match q with
       | EmployeeApproveReservation rid =>
           Engine.approve_endpoint issue describe full_ledger rid
       | _ => None
       end |}.

Definition fourth_request : Reservations.State :=
  Reservations.mkState [res 4 13 "pending"] [res 4 13 "pending"] "all" (Some 4) None.

End Examples.

(** ** More of the run-time: reads, lenses and [try]/[catch] with a value *)

(** The answer of the server to a request whose response data the page
    uses.  The requests outside [ApiRequest] are modelled by the answer to
    their payload; the trace keeps the dialogs, the messages and the
    requests of [ApiRequest]. *)
Inductive Response (A : Type) : Type :=
| Resolved (data : A)
| Rejected (e : JsError).
Arguments Resolved {A} data.
Arguments Rejected {A} e.

Section MoreHandler.
Context {St : Type}.

(** [await] of a promise whose value is used. *)
Definition await_response {A} (r : Response A) : M (St := St) A :=
  fun s => (match r with Resolved d => Normal d | Rejected e => Throw e end, s, []).

(** Reading a cell of the live state. *)
Definition gets {A} (f : St -> A) : M (St := St) A :=
  fun s => (Normal (f s), s, []).

(** [try { body } catch (error) { handler }] as an expression with a value. *)
Definition try_catch {A} (body : M (St := St) A)
    (handler : JsError -> M (St := St) A) : M (St := St) A :=
  fun s =>
    match body s with
    | (Normal a, s1, t1) => (Normal a, s1, t1)
    | (Throw e, s1, t1) =>
        let '(c, s2, t2) := handler e s1 in (c, s2, t1 ++ t2)
    end.

(** Running a computation over the part [T] of the state. *)
Definition zoom {T A} (get : St -> T) (put : T -> St -> St)
    (m : M (St := T) A) : M (St := St) A :=
  fun s => let '(c, t', tr) := m (get s) in (c, put t' s, tr).

End MoreHandler.

(** [Promise.all] of three promises: it is rejected as soon as one of them
    is; the callers only log the reason. *)
Definition promise_all3 {A B C} (a : Response A) (b : Response B)
    (c : Response C) : Response (A * B * C) :=
  match a, b, c with
  | Resolved x, Resolved y, Resolved z => Resolved (x, y, z)
  | Rejected e, _, _ => Rejected e
  | _, Rejected e, _ => Rejected e
  | _, _, Rejected e => Rejected e
  end.

(** Truthiness of a value that is [null] or a string. *)
Definition truthy (v : option string) : bool :=
  match v with
  | Some s => negb (String.eqb s "")
  | None => false
  end.

(** ** Employee portal: the rest of the [Reservations] page *)

Module StaffView.
Local Open Scope handler_scope.

(** All the cells of the component: those of [Reservations.State] and
    [loading]. *)
Record State := mkState {
  page : Reservations.State;
  loading : bool
}.

Definition setLoading (v : bool) : M unit :=
  set (fun s => mkState (page s) v).

Definition on_page {A} (m : M (St := Reservations.State) A) : M (St := State) A :=
  zoom page (fun p s => mkState p (loading s)) m.

Definition setStatusFilter (v : string) : M unit :=
  set (fun s => Reservations.mkState (Reservations.reservations s)
                  (Reservations.filteredReservations s) v
                  (Reservations.expandedReservation s)
                  (Reservations.cancelling s)).

(** [fetchReservations]; [server] is the answer to
    [employeeAPI.getReservations()]. *)
Definition fetchReservations (server : Response (list Reservation.t)) : M unit :=
  try_catch_finally
    (setLoading true ;;
     data <- await_response server ;;
     on_page (Reservations.setReservations data))
    (fun error =>
       emit (ToastError "Failed to load reservations") ;;
       emit (ConsoleError ""))
    (setLoading false).

(** The effect [useEffect(() => { filterReservations(); },
    [reservations, statusFilter])]: [filterReservations] of the render [s]
    runs on it. *)
Definition refiltered (s : Reservations.State) : Reservations.State :=
  final (Reservations.filterReservations s s).

(** The header of a reservation: [onClick={() => setExpandedReservation(
    expandedReservation === res.id ? null : res.id)}]. *)
Definition toggleExpanded (r : Reservations.State) (res : Reservation.t) : M unit :=
  Reservations.setExpandedReservation
    (if JS.cell_is (Reservations.expandedReservation r) (Reservation.id res)
     then None else Some (Reservation.id res)).

(** The message of the error toast of each button's handler when the
    server gives none. *)
Definition fallback_message (b : Reservations.Button) : string :=
  match b with
  | Reservations.ApproveRequest => "Failed to approve reservation"
  | Reservations.RejectRequest => "Failed to reject reservation"
  | Reservations.CancelReservationButton => "Failed to cancel reservation"
  end.

(** The reservation a request of the staff page is about. *)
Definition target (q : ApiRequest) : option Z :=
  match q with
  | EmployeeCancelReservation i => Some i
  | EmployeeApproveReservation i => Some i
  | EmployeeRejectReservation i _ => Some i
  | _ => None
  end.

End StaffView.

(** ** Vendor portal: the rest of the [Stalls] page *)

Module StallGrid.
Local Open Scope handler_scope.

(** All the cells of the component: those of [Stalls.State] and [loading]. *)
Record State := mkState {
  page : Stalls.State;
  loading : bool
}.

Definition setLoading (v : bool) : M unit :=
  set (fun s => mkState (page s) v).

Definition on_page {A} (m : M (St := Stalls.State) A) : M (St := State) A :=
  zoom page (fun p s => mkState p (loading s)) m.

Definition setStalls (v : list Stall.t) : M unit :=
  set (fun s => Stalls.mkState v (Stalls.filteredStalls s) (Stalls.selectedSize s)
                  (Stalls.selectedStall s) (Stalls.showModal s)
                  (Stalls.userReservations s)).
Definition setFilteredStalls (v : list Stall.t) : M unit :=
  set (fun s => Stalls.mkState (Stalls.stalls s) v (Stalls.selectedSize s)
                  (Stalls.selectedStall s) (Stalls.showModal s)
                  (Stalls.userReservations s)).
Definition setSelectedSize (v : string) : M unit :=
  set (fun s => Stalls.mkState (Stalls.stalls s) (Stalls.filteredStalls s) v
                  (Stalls.selectedStall s) (Stalls.showModal s)
                  (Stalls.userReservations s)).
Definition setUserReservations (v : list Reservation.t) : M unit :=
  set (fun s => Stalls.mkState (Stalls.stalls s) (Stalls.filteredStalls s)
                  (Stalls.selectedSize s) (Stalls.selectedStall s)
                  (Stalls.showModal s) v).

(** [fetchStalls]; [server] is the answer to [stallAPI.getAllStalls()]. *)
Definition fetchStalls (server : Response (list Stall.t)) : M unit :=
  try_catch_finally
    (setLoading true ;;
     data <- await_response server ;;
     on_page (setStalls data))
    (fun error =>
       emit (ToastError "Failed to load stalls") ;;
       emit (ConsoleError ""))
    (setLoading false).

(** [fetchUserReservations]; [server] is the answer to
    [reservationAPI.getUserReservations()].  There is no [finally]. *)
Definition fetchUserReservations (server : Response (list Reservation.t))
    : M (St := Stalls.State) unit :=
  try_catch_finally
    (data <- await_response server ;;
     setUserReservations data)
    (fun error => emit (ConsoleError "Error fetching reservations:"))
    (ret tt).

(** [filterStalls], the effect run when [stalls] or [selectedSize] changed. *)
Definition filterStalls (r : Stalls.State) : M unit :=
  if String.eqb (Stalls.selectedSize r) "all"
  then setFilteredStalls (Stalls.stalls r)
  else setFilteredStalls
         (filter (fun stall => String.eqb (Stall.size stall) (Stalls.selectedSize r))
                 (Stalls.stalls r)).

(** The modal's [onClose]. *)
Definition closeModal : M unit := Stalls.setShowModal false.

(** [isUserReserved] of a card of the grid. *)
Definition isUserReserved (r : Stalls.State) (stall : Stall.t) : bool :=
  existsb (fun res => Z.eqb (Reservation.stall_id res) (Stall.id stall)
                      && String.eqb (Reservation.status res) "confirmed")
          (Stalls.userReservations r).

(** The three looks of a card, from its [className]. *)
Inductive Look : Type := Greyed | Green | Inviting.

Definition card_look (r : Stalls.State) (stall : Stall.t) : Look :=
  if Stall.is_reserved stall && negb (isUserReserved r stall) then Greyed
  else if isUserReserved r stall then Green
  else Inviting.

(** What a card carries besides the stall's data. *)
Inductive Tag : Type := ReservedTag | YourStallTag | ReserveLink.

Definition card_tags (r : Stalls.State) (stall : Stall.t) : list Tag :=
  (if Stall.is_reserved stall && negb (isUserReserved r stall)
   then [ReservedTag] else [])
  ++ (if isUserReserved r stall then [YourStallTag] else [])
  ++ (if negb (Stall.is_reserved stall) && negb (isUserReserved r stall)
      then [ReserveLink] else []).

End StallGrid.

(** ** Vendor portal: the rest of the [Dashboard] page *)

Module Genre.
Record t := mk {
  id : Z;
  name : string;
  icon : string
}.
End Genre.

Module VendorHome.
Local Open Scope handler_scope.

(** All the cells of the component: those of [Dashboard.State], the genres
    and [saving]. *)
Record State := mkState {
  page : Dashboard.State;
  genres : list Genre.t;
  userGenres : list Genre.t;
  selectedGenres : list Z;
  saving : bool
}.

Definition setReservations (v : list Reservation.t) : M unit :=
  set (fun s => mkState (Dashboard.mkState v (Dashboard.loading (page s))
                           (Dashboard.expandedReservation (page s)))
                        (genres s) (userGenres s) (selectedGenres s) (saving s)).
Definition setLoading (v : bool) : M unit :=
  set (fun s => mkState (Dashboard.mkState (Dashboard.reservations (page s)) v
                           (Dashboard.expandedReservation (page s)))
                        (genres s) (userGenres s) (selectedGenres s) (saving s)).
Definition setGenres (v : list Genre.t) : M unit :=
  set (fun s => mkState (page s) v (userGenres s) (selectedGenres s) (saving s)).
Definition setUserGenres (v : list Genre.t) : M unit :=
  set (fun s => mkState (page s) (genres s) v (selectedGenres s) (saving s)).
Definition setSelectedGenres (v : list Z) : M unit :=
  set (fun s => mkState (page s) (genres s) (userGenres s) v (saving s)).
Definition setSaving (v : bool) : M unit :=
  set (fun s => mkState (page s) (genres s) (userGenres s) (selectedGenres s) v).

(** The answers to the three reads of [fetchData]. *)
Record Reads := {
  getUserReservations : Response (list Reservation.t);
  getAllGenres : Response (list Genre.t);
  getUserGenres : Response (list Genre.t)
}.

Definition fetchData (server : Reads) : M unit :=
  try_catch_finally
    (setLoading true ;;
     all <- await_response (promise_all3 (getUserReservations server)
                                         (getAllGenres server)
                                         (getUserGenres server)) ;;
     let '(resData, genreData, userGenreData) := all in
     setReservations resData ;;
     setGenres genreData ;;
     setUserGenres userGenreData ;;
     setSelectedGenres (map Genre.id userGenreData))
    (fun error =>
       emit (ToastError "Failed to load data") ;;
       emit (ConsoleError ""))
    (setLoading false).

(** [prev.includes(genreId)] *)
Definition includes (l : list Z) (i : Z) : bool := existsb (Z.eqb i) l.

(** The updater of [handleGenreToggle]:
    [prev => prev.includes(genreId) ? prev.filter(id => id !== genreId)
                                    : [...prev, genreId]]. *)
Definition toggled (genreId : Z) (prev : list Z) : list Z :=
  if includes prev genreId
  then filter (fun i => negb (Z.eqb i genreId)) prev
  else prev ++ [genreId].

(** [handleGenreToggle]: a functional update, applied to the live cell. *)
Definition handleGenreToggle (genreId : Z) : M unit :=
  set (fun s => mkState (page s) (genres s) (userGenres s)
                        (toggled genreId (selectedGenres s)) (saving s)).

(** [handleSaveGenres]; [server] answers [genreAPI.addUserGenres(ids)].
    The handler closes over the render [r]. *)
Definition handleSaveGenres (server : list Z -> Response unit) (r : State) : M unit :=
  try_catch_finally
    (setSaving true ;;
     await_response (server (selectedGenres r)) ;;
     emit (ToastSuccess "Genres updated successfully!") ;;
     setUserGenres (filter (fun g => includes (selectedGenres r) (Genre.id g))
                           (genres r)))
    (fun error => emit (ToastError "Failed to update genres"))
    (setSaving false).

(** The label of the status pill of a reservation. *)
Inductive Pill : Type := ActivePill | PendingPill | CancelledPill.

Definition status_pill (res : Reservation.t) : Pill :=
  if String.eqb (Reservation.status res) "confirmed" then ActivePill
  else if String.eqb (Reservation.status res) "pending" then PendingPill
  else CancelledPill.

(** The header of a reservation toggles its expanded content. *)
Definition toggleExpanded (r : Dashboard.State) (res : Reservation.t)
    : M (St := Dashboard.State) unit :=
  set (fun s => Dashboard.mkState (Dashboard.reservations s) (Dashboard.loading s)
                  (if JS.cell_is (Dashboard.expandedReservation r) (Reservation.id res)
                   then None else Some (Reservation.id res))).

End VendorHome.

(** ** The browser: [localStorage] and the location *)

Module Browser.

Definition Storage := string -> option string.

Definition getItem (k : string) (st : Storage) : option string := st k.
Definition setItem (k v : string) (st : Storage) : Storage :=
  fun k' => if String.eqb k' k then Some v else st k'.
Definition removeItem (k : string) (st : Storage) : Storage :=
  fun k' => if String.eqb k' k then None else st k'.

Record Window := mkWindow {
  localStorage : Storage;
  location : string
}.

Definition store (f : Storage -> Storage) : M unit :=
  set (fun w => mkWindow (f (localStorage w)) (location w)).

(** [window.location.href = path], and the router's [navigate(path)]. *)
Definition goto (path : string) : M unit :=
  set (fun w => mkWindow (localStorage w) path).

End Browser.

(** ** The API clients: the interceptors of [api.js] *)

Module Http.
Local Open Scope handler_scope.

(** The request configuration, as far as the interceptor touches it. *)
Record Config := mkConfig {
  method : string;
  url : string;
  headers : string -> option string;
  requestId : option string
}.

(** An error of the client with [error.response?.status]. *)
Record Failure := {
  status : option Z;
  error : JsError
}.

(** The request interceptor; [rid] is what [apiLogger.logRequest] of the
    logging module returns.  The calls that only log are left out. *)
Definition on_request (rid : string) (config : Config)
    : M (St := Browser.Window) Config :=
  token <- gets (fun w => Browser.getItem "access_token" (Browser.localStorage w)) ;;
  let config := mkConfig (method config) (url config) (headers config) (Some rid) in
  match token with
  | Some t =>
      if truthy token
      then ret (mkConfig (method config) (url config)
                  (fun h => if String.eqb h "Authorization"
                            then Some (String.append "Bearer " t)
                            else headers config h)
                  (requestId config))
      else ret config
  | None => ret config
  end.

(** The response interceptor's error branch; [profile] is the second key
    it clears, ['employee'] in the employee portal and ['user'] in the
    vendor portal.  It always rejects with the error it was given. *)
Definition on_response_error (profile : string) (f : Failure)
    : M (St := Browser.Window) unit :=
  (match status f with
   | Some 401%Z =>
       Browser.store (Browser.removeItem "access_token") ;;
       Browser.store (Browser.removeItem profile) ;;
       Browser.goto "/login"
   | _ => ret tt
   end) ;;
  throw (error f).

(** The answer of the server to a request sent through the client. *)
Inductive Reply (A : Type) : Type :=
| Accepted (data : A)
| Refused (f : Failure).
Arguments Accepted {A} data.
Arguments Refused {A} f.

(** [await] of a request of the client whose response data is used: a
    refused request passes through the response interceptor before it
    reaches the caller.  The request interceptor only reads the browser. *)
Definition through_client {A} (profile : string) (r : Reply A)
    : M (St := Browser.Window) A :=
  match r with
  | Accepted d => ret d
  | Refused f => on_response_error profile f ;; throw (error f)
  end.

End Http.

(** ** Employee portal: the [AuthProvider], the route guard and the login page *)

Module Auth.
Local Open Scope handler_scope.

(** [JSON.stringify] and [JSON.parse] on the employee object; [parse]
    gives [None] where [JSON.parse] throws. *)
Record Codec (Employee : Type) := {
  stringify : Employee -> string;
  parse : string -> option Employee
}.
Arguments stringify {Employee} c e.
Arguments parse {Employee} c s.

Section Provider.
Context {Employee : Type}.
Variable codec : Codec Employee.

Record Provider := mkProvider {
  employee : option Employee;
  token : option string;
  loading : bool
}.

(** The provider in its browser. *)
Record App := mkApp {
  provider : Provider;
  window : Browser.Window
}.

Definition setEmployee (v : option Employee) : M unit :=
  set (fun a => mkApp (mkProvider v (token (provider a)) (loading (provider a)))
                      (window a)).
Definition setToken (v : option string) : M unit :=
  set (fun a => mkApp (mkProvider (employee (provider a)) v (loading (provider a)))
                      (window a)).
Definition setLoading (v : bool) : M unit :=
  set (fun a => mkApp (mkProvider (employee (provider a)) (token (provider a)) v)
                      (window a)).

Definition in_window {A} (m : M (St := Browser.Window) A) : M (St := App) A :=
  zoom window (fun w a => mkApp (provider a) w) m.

(** [response.data] of the login request. *)
Record LoginData := {
  access_token : string;
  data_employee : Employee
}.

(** The mount effect of the provider. *)
Definition restore : M unit :=
  storedToken <- gets (fun a => Browser.getItem "access_token"
                                  (Browser.localStorage (window a))) ;;
  storedEmployee <- gets (fun a => Browser.getItem "employee"
                                     (Browser.localStorage (window a))) ;;
  (if truthy storedToken then
     setToken storedToken ;;
     match storedEmployee with
     | Some text =>
         if truthy storedEmployee then
           match parse codec text with
           | Some e => setEmployee (Some e)
           | None => throw {| response_data_error := None |}
           end
         else ret tt
     | None => ret tt
     end
   else ret tt) ;;
  setLoading false.

(** [login]; [server] answers [authAPI.employeeLogin(email, password)],
    which goes through the client of the employee portal. *)
Definition login (server : string -> string -> Http.Reply LoginData)
    (email password : string) : M LoginData :=
  try_catch
    (data <- in_window (Http.through_client "employee" (server email password)) ;;
     setToken (Some (access_token data)) ;;
     setEmployee (Some (data_employee data)) ;;
     in_window (Browser.store (Browser.setItem "access_token" (access_token data))) ;;
     in_window (Browser.store (Browser.setItem "employee"
                                 (stringify codec (data_employee data)))) ;;
     ret data)
    (fun error => throw error).

Definition logout : M unit :=
  setEmployee None ;;
  setToken None ;;
  in_window (Browser.store (Browser.removeItem "access_token")) ;;
  in_window (Browser.store (Browser.removeItem "employee")).

(** [isAuthenticated: !!token] *)
Definition isAuthenticated (p : Provider) : bool := truthy (token p).

(** What [ProtectedRoute] returns. *)
Inductive Rendered : Type :=
| Spinner
| NavigateTo (path : string)
| Children.

Definition ProtectedRoute (p : Provider) : Rendered :=
  if loading p then Spinner
  else if negb (isAuthenticated p) then NavigateTo "/login"
  else Children.

(** The login page: its form, its [loading] cell and the application. *)
Record LoginPage := mkLoginPage {
  app : App;
  email : string;
  password : string;
  submitting : bool
}.

Definition setSubmitting (v : bool) : M unit :=
  set (fun p => mkLoginPage (app p) (email p) (password p) v).

Definition in_app {A} (m : M (St := App) A) : M (St := LoginPage) A :=
  zoom app (fun a p => mkLoginPage a (email p) (password p) (submitting p)) m.

(** [handleSubmit] of the login form, closing over the render [r]. *)
Definition handleSubmit (server : string -> string -> Http.Reply LoginData)
    (r : LoginPage) : M unit :=
  setSubmitting true ;;
  try_catch_finally
    (in_app (login server (email r) (password r)) ;;
     emit (ToastSuccess "Welcome to Employee Portal!") ;;
     in_app (in_window (Browser.goto "/dashboard")))
    (fun error =>
       emit (ToastError (JS.opt_or_else (response_data_error error) "Login failed")))
    (setSubmitting false).

End Provider.

End Auth.

(** ** Concrete browsers and sessions used in the examples *)

Module Samples.

(** An employee object that is a string, with its JSON text. *)
Definition text_codec : Auth.Codec string :=
  {| Auth.stringify := fun e => String.append "j:" e;
     Auth.parse := fun s =>
       if String.prefix "j:" s
       then Some (String.substring 2 (String.length s - 2) s)
       else None |}.

Definition empty_storage : Browser.Storage := fun _ => None.

Definition fresh_window : Browser.Window :=
  Browser.mkWindow empty_storage "/login".

(** The provider as it is mounted. *)
Definition fresh_app : Auth.App (Employee := string) :=
  Auth.mkApp (Auth.mkProvider None None true) fresh_window.

Definition admin : Auth.LoginData (Employee := string) :=
  {| Auth.access_token := "t0k3n"; Auth.data_employee := "admin" |}.

(** A server that knows one password. *)
Definition login_server (email password : string)
    : Http.Reply (Auth.LoginData (Employee := string)) :=
  if String.eqb password "admin123" then Http.Accepted admin
  else Http.Refused
         {| Http.status := Some 401%Z;
            Http.error := {| response_data_error := Some "Invalid credentials" |} |}.

(** A signed-in employee on the login page. *)
Definition signed_in_form (password : string) : Auth.LoginPage (Employee := string) :=
  Auth.mkLoginPage
    (Auth.mkApp (Auth.mkProvider (Some "admin") (Some "t0k3n") false)
       (Browser.mkWindow
          (fun k => if String.eqb k "access_token" then Some "t0k3n"
                    else if String.eqb k "theme" then Some "dark" else None)
          "/login"))
    "admin@bookfair.lk" password false.


Definition login_form (password : string) : Auth.LoginPage (Employee := string) :=
  Auth.mkLoginPage fresh_app "admin@bookfair.lk" password false.

Definition plain_config : Http.Config :=
  Http.mkConfig "get" "/stalls" (fun _ => None) None.

Definition signed_in_window : Browser.Window :=
  Browser.mkWindow
    (Browser.setItem "employee" "j:admin"
       (Browser.setItem "access_token" "t0k3n" empty_storage))
    "/dashboard".

End Samples.

(** * Properties *)

(** ** How the staff handlers run *)

Ltac run_handler :=
  cbv [Reservations.click Reservations.onClick
       Reservations.handleApproveReservation Reservations.handleCancelReservation
       Reservations.handleRejectReservation
       Reservations.setReservations Reservations.setCancelling
       Reservations.setExpandedReservation
       Stalls.select Stalls.card_onClick Stalls.handleSelectStall
       Stalls.handleConfirmReservation Stalls.setSelectedStall Stalls.setShowModal
       Dashboard.onClick Dashboard.handleCancelReservation
       bind ret emit set throw confirm prompt await_api try_catch_finally
       final effects].

Section StaffHandlers.
Variable w : World.
Variable s : Reservations.State.
Variable res : Reservation.t.

Lemma approve_declined :
  window_confirm w (Reservations.approve_question res) = false ->
  Reservations.click w s Reservations.ApproveRequest res
  = (Normal tt, s, [WindowConfirm (Reservations.approve_question res)]).
Proof. intros H. run_handler. rewrite H. reflexivity. Qed.

Lemma approve_resolved :
  window_confirm w (Reservations.approve_question res) = true ->
  api w (EmployeeApproveReservation (Reservation.id res)) = None ->
  Reservations.click w s Reservations.ApproveRequest res
  = (Normal tt,
     Reservations.mkState
       (Reservations.confirmed_in res (Reservations.reservations s))
       (Reservations.filteredReservations s) (Reservations.statusFilter s)
       None None,
     [WindowConfirm (Reservations.approve_question res);
      Api (EmployeeApproveReservation (Reservation.id res));
      ToastSuccess "Reservation approved! Confirmation email sent to vendor."]).
Proof.
  intros H1 H2. run_handler. rewrite H1. cbn. rewrite H2. reflexivity.
Qed.

Lemma approve_refused (e : JsError) :
  window_confirm w (Reservations.approve_question res) = true ->
  api w (EmployeeApproveReservation (Reservation.id res)) = Some e ->
  Reservations.click w s Reservations.ApproveRequest res
  = (Normal tt,
     Reservations.mkState
       (Reservations.reservations s)
       (Reservations.filteredReservations s) (Reservations.statusFilter s)
       (Reservations.expandedReservation s) None,
     [WindowConfirm (Reservations.approve_question res);
      Api (EmployeeApproveReservation (Reservation.id res));
      ConsoleError "Approval error:";
      ToastError (JS.opt_or_else (response_data_error e)
                                 "Failed to approve reservation")]).
Proof.
  intros H1 H2. run_handler. rewrite H1. cbn. rewrite H2. reflexivity.
Qed.

Lemma cancel_declined :
  window_confirm w (Reservations.cancel_question res) = false ->
  Reservations.click w s Reservations.CancelReservationButton res
  = (Normal tt, s, [WindowConfirm (Reservations.cancel_question res)]).
Proof. intros H. run_handler. rewrite H. reflexivity. Qed.

Lemma cancel_resolved :
  window_confirm w (Reservations.cancel_question res) = true ->
  api w (EmployeeCancelReservation (Reservation.id res)) = None ->
  Reservations.click w s Reservations.CancelReservationButton res
  = (Normal tt,
     Reservations.mkState
       (Reservations.without res (Reservations.reservations s))
       (Reservations.filteredReservations s) (Reservations.statusFilter s)
       None None,
     [WindowConfirm (Reservations.cancel_question res);
      Api (EmployeeCancelReservation (Reservation.id res));
      ToastSuccess "Reservation cancelled successfully. Email sent to vendor."]).
Proof.
  intros H1 H2. run_handler. rewrite H1. cbn. rewrite H2. reflexivity.
Qed.

Lemma cancel_refused (e : JsError) :
  window_confirm w (Reservations.cancel_question res) = true ->
  api w (EmployeeCancelReservation (Reservation.id res)) = Some e ->
  Reservations.click w s Reservations.CancelReservationButton res
  = (Normal tt,
     Reservations.mkState
       (Reservations.reservations s)
       (Reservations.filteredReservations s) (Reservations.statusFilter s)
       (Reservations.expandedReservation s) None,
     [WindowConfirm (Reservations.cancel_question res);
      Api (EmployeeCancelReservation (Reservation.id res));
      ConsoleError "Cancel error:";
      ToastError (JS.opt_or_else (response_data_error e)
                                 "Failed to cancel reservation")]).
Proof.
  intros H1 H2. run_handler. rewrite H1. cbn. rewrite H2. reflexivity.
Qed.

Lemma reject_dismissed :
  window_prompt w (Reservations.reject_question res) "" = None ->
  Reservations.click w s Reservations.RejectRequest res
  = (Normal tt, s, [WindowPrompt (Reservations.reject_question res) ""]).
Proof. intros H. run_handler. rewrite H. reflexivity. Qed.

Lemma reject_resolved (reason : string) :
  window_prompt w (Reservations.reject_question res) "" = Some reason ->
  api w (EmployeeRejectReservation (Reservation.id res) (JS.or_else reason "No reason provided"))
  = None ->
  Reservations.click w s Reservations.RejectRequest res
  = (Normal tt,
     Reservations.mkState
       (Reservations.without res (Reservations.reservations s))
       (Reservations.filteredReservations s) (Reservations.statusFilter s)
       None None,
     [WindowPrompt (Reservations.reject_question res) "";
      Api (EmployeeRejectReservation (Reservation.id res) (JS.or_else reason "No reason provided"));
      ToastSuccess "Reservation rejected. Notification sent to vendor."]).
Proof.
  intros H1 H2. run_handler. rewrite H1. cbn. rewrite H2. reflexivity.
Qed.

Lemma reject_refused (reason : string) (e : JsError) :
  window_prompt w (Reservations.reject_question res) "" = Some reason ->
  api w (EmployeeRejectReservation (Reservation.id res) (JS.or_else reason "No reason provided"))
  = Some e ->
  Reservations.click w s Reservations.RejectRequest res
  = (Normal tt,
     Reservations.mkState
       (Reservations.reservations s)
       (Reservations.filteredReservations s) (Reservations.statusFilter s)
       (Reservations.expandedReservation s) None,
     [WindowPrompt (Reservations.reject_question res) "";
      Api (EmployeeRejectReservation (Reservation.id res) (JS.or_else reason "No reason provided"));
      ConsoleError "Rejection error:";
      ToastError (JS.opt_or_else (response_data_error e)
                                 "Failed to reject reservation")]).
Proof.
  intros H1 H2. run_handler. rewrite H1. cbn. rewrite H2. reflexivity.
Qed.

End StaffHandlers.

(** ** The two list updates of the staff page *)

Section ListUpdates.
Variable res : Reservation.t.

Lemma confirmed_in_length l :
  List.length (Reservations.confirmed_in res l) = List.length l.
Proof. apply length_map. Qed.

Lemma confirmed_in_ids l :
  map Reservation.id (Reservations.confirmed_in res l) = map Reservation.id l.
Proof.
  unfold Reservations.confirmed_in. rewrite map_map.
  apply map_ext. intros r.
  destruct (Z.eqb (Reservation.id r) (Reservation.id res)); reflexivity.
Qed.

Lemma confirmed_in_nth l i :
  nth_error (Reservations.confirmed_in res l) i
  = option_map
      (fun r => if Z.eqb (Reservation.id r) (Reservation.id res)
                then Reservation.with_status r "confirmed" else r)
      (nth_error l i).
Proof. apply nth_error_map. Qed.

Lemma confirmed_in_target l x :
  In x (Reservations.confirmed_in res l) ->
  Reservation.id x = Reservation.id res ->
  Reservation.status x = "confirmed".
Proof.
  unfold Reservations.confirmed_in. rewrite in_map_iff.
  intros [r [Hx _]] Hid. subst x.
  destruct (Z.eqb_spec (Reservation.id r) (Reservation.id res)) as [_ | Hne].
  - reflexivity.
  - contradiction.
Qed.

Lemma confirmed_in_present l :
  In res l ->
  In (Reservation.with_status res "confirmed") (Reservations.confirmed_in res l).
Proof.
  intros Hin. unfold Reservations.confirmed_in. rewrite in_map_iff.
  exists res. split; [| exact Hin].
  rewrite Z.eqb_refl. reflexivity.
Qed.

Lemma without_spec l x :
  In x (Reservations.without res l)
  <-> In x l /\ Reservation.id x <> Reservation.id res.
Proof.
  unfold Reservations.without. rewrite filter_In.
  destruct (Z.eqb_spec (Reservation.id x) (Reservation.id res)); cbn; intuition congruence.
Qed.

Lemma without_ids l :
  map Reservation.id (Reservations.without res l)
  = filter (fun i => negb (Z.eqb i (Reservation.id res))) (map Reservation.id l).
Proof.
  induction l as [| x l IH]; cbn.
  - reflexivity.
  - destruct (Z.eqb (Reservation.id x) (Reservation.id res)); cbn.
    + exact IH.
    + f_equal. exact IH.
Qed.

End ListUpdates.

(** ** What the staff page offers *)

Lemma buttons_spec (res : Reservation.t) (b : Reservations.Button) :
  In b (Reservations.buttons res)
  <-> ((b = Reservations.ApproveRequest \/ b = Reservations.RejectRequest)
       /\ Reservation.status res = "pending")
      \/ (b = Reservations.CancelReservationButton
          /\ Reservation.status res = "confirmed").
Proof.
  unfold Reservations.buttons.
  destruct (String.eqb_spec (Reservation.status res) "pending") as [Hp | Hp];
    destruct (String.eqb_spec (Reservation.status res) "confirmed") as [Hc | Hc];
    cbn; intuition (try discriminate; try congruence; auto).
Qed.

Lemma panel_buttons (r : Reservations.State) (res : Reservation.t)
    (b : Reservations.Button) :
  In b (Reservations.panel r res) -> In b (Reservations.buttons res).
Proof.
  unfold Reservations.panel.
  destruct (JS.cell_is _ _); [auto | intros []].
Qed.

(** The only requests a click on the cancel button can issue. *)
Lemma cancel_click_requests (w : World) (s : Reservations.State)
    (res : Reservation.t) :
  let t := requests (effects (Reservations.click w s
                                Reservations.CancelReservationButton res)) in
  t = [] \/ t = [EmployeeCancelReservation (Reservation.id res)].
Proof.
  destruct (window_confirm w (Reservations.cancel_question res)) eqn:Hc.
  - destruct (api w (EmployeeCancelReservation (Reservation.id res))) as [e |] eqn:Ha.
    + rewrite (cancel_refused w s res e Hc Ha). right. reflexivity.
    + rewrite (cancel_resolved w s res Hc Ha). right. reflexivity.
  - rewrite (cancel_declined w s res Hc). left. reflexivity.
Qed.

(** The only requests a click on the reject button can issue. *)
Lemma reject_click_requests (w : World) (s : Reservations.State)
    (res : Reservation.t) :
  let t := requests (effects (Reservations.click w s
                                Reservations.RejectRequest res)) in
  t = [] \/ exists reason, t = [EmployeeRejectReservation (Reservation.id res) reason].
Proof.
  destruct (window_prompt w (Reservations.reject_question res) "") as [reason |] eqn:Hp.
  - right. exists (JS.or_else reason "No reason provided").
    destruct (api w (EmployeeRejectReservation (Reservation.id res)
                       (JS.or_else reason "No reason provided"))) as [e |] eqn:Ha.
    + rewrite (reject_refused w s res reason e Hp Ha). reflexivity.
    + rewrite (reject_resolved w s res reason Hp Ha). reflexivity.
  - rewrite (reject_dismissed w s res Hp). left. reflexivity.
Qed.

(** ** The claims about the staff page *)

(** C4. Approve takes a reservation to Confirmed and is offered for pending
    reservations only: after the staff member confirms the dialog and the
    approve call resolves, every entry of the list with the approved id has
    status 'confirmed' (and the approved reservation, when it was in the
    list, is still there with that status); a button whose click issues an
    approve request is rendered for a reservation exactly when its status
    is 'pending'. *)
Theorem approve_confirms_and_is_offered_when_pending
    (w : World) (s : Reservations.State) (res : Reservation.t) :
  window_confirm w (Reservations.approve_question res) = true ->
  api w (EmployeeApproveReservation (Reservation.id res)) = None ->
  let s' := final (Reservations.click w s Reservations.ApproveRequest res) in
  (forall x, In x (Reservations.reservations s') ->
             Reservation.id x = Reservation.id res ->
             Reservation.status x = "confirmed")
  /\ (In res (Reservations.reservations s) ->
      exists x, In x (Reservations.reservations s')
                /\ Reservation.id x = Reservation.id res
                /\ Reservation.status x = "confirmed")
  /\ (forall res', In Reservations.ApproveRequest (Reservations.buttons res')
                   <-> Reservation.status res' = "pending")
  /\ (forall w' r b res' q,
        In b (Reservations.panel r res') ->
        In (EmployeeApproveReservation q)
           (requests (effects (Reservations.click w' r b res'))) ->
        Reservation.status res' = "pending").
Proof.
  intros Hc Ha s'. subst s'. rewrite (approve_resolved w s res Hc Ha).
  cbn [final fst snd Reservations.reservations].
  split; [| split; [| split]].
  - intros x Hx Hid. exact (confirmed_in_target res _ x Hx Hid).
  - intros Hin. exists (Reservation.with_status res "confirmed").
    split; [apply confirmed_in_present; exact Hin |].
    split; reflexivity.
  - intros res'. rewrite buttons_spec. split.
    + intros [[_ H] | [H _]]; [exact H | discriminate].
    + intros H. left. split; [left; reflexivity | exact H].
  - intros w' r b res' q Hb Hq.
    apply panel_buttons in Hb. apply buttons_spec in Hb.
    destruct Hb as [[_ H] | [Hb Hs]]; [exact H |]. subst b.
    destruct (cancel_click_requests w' r res') as [E | E];
      cbv zeta in E; rewrite E in Hq; cbn in Hq.
    + contradiction.
    + destruct Hq as [Hq | []]. discriminate.
Qed.

Lemma approve_confirms_and_is_offered_when_pending_witness :
  let s' := final (Reservations.click Examples.agreeable Examples.staff_page
                     Reservations.ApproveRequest (Examples.res 2 11 "pending")) in
  In (Examples.res 2 11 "confirmed") (Reservations.reservations s')
  /\ forall x, In x (Reservations.reservations s') ->
               Reservation.id x = 2%Z -> Reservation.status x = "confirmed".
Proof.
  pose proof (approve_confirms_and_is_offered_when_pending
                Examples.agreeable Examples.staff_page
                (Examples.res 2 11 "pending") eq_refl eq_refl) as [H _].
  split.
  - vm_compute. right. left. reflexivity.
  - exact H.
Defined.

(** C9. A successful approve touches only the targeted reservation: the
    list keeps its length and the order of its ids, every element with
    another id is unchanged at its position, and an element with the
    approved id differs from the old one at its position in the status
    field only. *)
Theorem approve_touches_only_the_target
    (w : World) (s : Reservations.State) (res : Reservation.t) :
  window_confirm w (Reservations.approve_question res) = true ->
  api w (EmployeeApproveReservation (Reservation.id res)) = None ->
  let l := Reservations.reservations s in
  let l' := Reservations.reservations
              (final (Reservations.click w s Reservations.ApproveRequest res)) in
  List.length l' = List.length l
  /\ map Reservation.id l' = map Reservation.id l
  /\ (forall i x, nth_error l i = Some x ->
                  Reservation.id x <> Reservation.id res ->
                  nth_error l' i = Some x)
  /\ (forall i x, nth_error l i = Some x ->
                  Reservation.id x = Reservation.id res ->
                  exists x', nth_error l' i = Some x'
                    /\ Reservation.status x' = "confirmed"
                    /\ Reservation.id x' = Reservation.id x
                    /\ Reservation.stall_id x' = Reservation.stall_id x
                    /\ Reservation.notes x' = Reservation.notes x
                    /\ Reservation.qr_data x' = Reservation.qr_data x
                    /\ Reservation.confirmed_at x' = Reservation.confirmed_at x
                    /\ Reservation.stall x' = Reservation.stall x
                    /\ Reservation.user x' = Reservation.user x).
Proof.
  intros Hc Ha l l'. subst l l'. rewrite (approve_resolved w s res Hc Ha).
  cbn [final fst snd Reservations.reservations].
  split; [apply confirmed_in_length |].
  split; [apply confirmed_in_ids |].
  split.
  - intros i x Hx Hne. rewrite confirmed_in_nth, Hx. cbn.
    destruct (Z.eqb_spec (Reservation.id x) (Reservation.id res)); [contradiction | reflexivity].
  - intros i x Hx Hid. exists (Reservation.with_status x "confirmed").
    rewrite confirmed_in_nth, Hx. cbn.
    rewrite Hid, Z.eqb_refl. repeat split; reflexivity.
Qed.

Lemma approve_touches_only_the_target_witness :
  Reservations.reservations
    (final (Reservations.click Examples.agreeable Examples.staff_page
              Reservations.ApproveRequest (Examples.res 2 11 "pending")))
  = [Examples.res 1 10 "confirmed"; Examples.res 2 11 "confirmed";
     Examples.res 3 12 "cancelled"]
  /\ nth_error
       (Reservations.reservations
          (final (Reservations.click Examples.agreeable Examples.staff_page
                    Reservations.ApproveRequest (Examples.res 2 11 "pending"))))
       0
     = Some (Examples.res 1 10 "confirmed").
Proof.
  split; [reflexivity |].
  pose proof (approve_touches_only_the_target
                Examples.agreeable Examples.staff_page
                (Examples.res 2 11 "pending") eq_refl eq_refl) as [_ [_ [H _]]].
  apply (H 0%nat (Examples.res 1 10 "confirmed")); [reflexivity | discriminate].
Defined.

(** C10. Dismissing the rejection prompt is a no-op: when the prompt
    returns null, [handleRejectReservation] returns without any API call,
    and the page state, the reservations list in particular, is as
    before. *)
Theorem reject_prompt_dismissed_is_noop
    (w : World) (s : Reservations.State) (res : Reservation.t) :
  window_prompt w (Reservations.reject_question res) "" = None ->
  let o := Reservations.handleRejectReservation w s res s in
  requests (effects o) = []
  /\ final o = s
  /\ Reservations.reservations (final o) = Reservations.reservations s
  /\ effects o = [WindowPrompt (Reservations.reject_question res) ""].
Proof.
  intros Hp o. subst o.
  change (Reservations.handleRejectReservation w s res s)
    with (Reservations.click w s Reservations.RejectRequest res).
  rewrite (reject_dismissed w s res Hp).
  repeat split; reflexivity.
Qed.

Lemma reject_prompt_dismissed_is_noop_witness :
  final (Reservations.handleRejectReservation Examples.dismissive
           Examples.staff_page (Examples.res 2 11 "pending") Examples.staff_page)
  = Examples.staff_page
  /\ requests
       (effects (Reservations.handleRejectReservation Examples.dismissive
                   Examples.staff_page (Examples.res 2 11 "pending")
                   Examples.staff_page))
     = [].
Proof.
  pose proof (reject_prompt_dismissed_is_noop Examples.dismissive
                Examples.staff_page (Examples.res 2 11 "pending") eq_refl)
    as [H1 [H2 _]].
  split; [exact H2 | exact H1].
Defined.

(** C6. The reason carried by a reject request: when the staff member
    answers the prompt with the empty string, which is what leaving the
    optional reason out gives, the one request issued is the reject of the
    reservation with the reason "No reason provided"; when the answer is a
    non-empty string, the request carries exactly that string. *)
Theorem reject_request_carries_reason
    (w : World) (s : Reservations.State) (res : Reservation.t) (reason : string) :
  window_prompt w (Reservations.reject_question res) "" = Some reason ->
  let t := requests (effects (Reservations.handleRejectReservation w s res s)) in
  (reason = "" ->
   t = [EmployeeRejectReservation (Reservation.id res) "No reason provided"])
  /\ (reason <> "" ->
      t = [EmployeeRejectReservation (Reservation.id res) reason]).
Proof.
  intros Hp t.
  assert (Ht : t = [EmployeeRejectReservation (Reservation.id res)
                      (JS.or_else reason "No reason provided")]).
  { subst t.
    change (Reservations.handleRejectReservation w s res s)
      with (Reservations.click w s Reservations.RejectRequest res).
    destruct (api w (EmployeeRejectReservation (Reservation.id res)
                       (JS.or_else reason "No reason provided"))) as [e |] eqn:Ha.
    - rewrite (reject_refused w s res reason e Hp Ha). reflexivity.
    - rewrite (reject_resolved w s res reason Hp Ha). reflexivity. }
  rewrite Ht. unfold JS.or_else. split.
  - intros ->. reflexivity.
  - intros Hne. destruct (String.eqb_spec reason ""); [contradiction | reflexivity].
Qed.

Lemma reject_request_carries_reason_witness :
  requests
    (effects (Reservations.handleRejectReservation Examples.agreeable
                Examples.staff_page (Examples.res 2 11 "pending")
                Examples.staff_page))
  = [EmployeeRejectReservation 2 "No reason provided"]
  /\ requests
       (effects (Reservations.handleRejectReservation Examples.outspoken
                   Examples.staff_page (Examples.res 2 11 "pending")
                   Examples.staff_page))
     = [EmployeeRejectReservation 2 "duplicate"].
Proof.
  split.
  - apply (reject_request_carries_reason Examples.agreeable Examples.staff_page
             (Examples.res 2 11 "pending") "" eq_refl).
    reflexivity.
  - apply (reject_request_carries_reason Examples.outspoken Examples.staff_page
             (Examples.res 2 11 "pending") "duplicate" eq_refl).
    discriminate.
Defined.

(** ** Cancel and reject in the engine's ledger *)

Section Transitions.
Variable rid : Z.
Variable to : Engine.Status.
Variable why : option string.

Lemma moved_id (e : Engine.Entry) :
  Engine.id (Engine.moved rid to why e) = Engine.id e.
Proof.
  unfold Engine.moved. destruct (Z.eqb (Engine.id e) rid); reflexivity.
Qed.

Lemma moved_ids (L : Engine.Ledger) :
  map Engine.id (map (Engine.moved rid to why) L) = map Engine.id L.
Proof.
  rewrite map_map. apply map_ext. intros e. apply moved_id.
Qed.

Lemma moved_others (L : Engine.Ledger) (x : Engine.Entry) :
  In x L -> Engine.id x <> rid -> In x (map (Engine.moved rid to why) L).
Proof.
  intros Hx Hne. apply in_map_iff. exists x. split; [| exact Hx].
  unfold Engine.moved.
  destruct (Z.eqb_spec (Engine.id x) rid); [contradiction | reflexivity].
Qed.

Lemma get_after_moved (L : Engine.Ledger) :
  Engine.get (map (Engine.moved rid to why) L) rid
  = option_map (Engine.moved rid to why) (Engine.get L rid).
Proof.
  unfold Engine.get. induction L as [| x L IH]; cbn.
  - reflexivity.
  - rewrite moved_id. destruct (Z.eqb (Engine.id x) rid); [reflexivity | exact IH].
Qed.

Lemma moved_target (L : Engine.Ledger) (e : Engine.Entry) :
  Engine.get L rid = Some e ->
  exists e',
    Engine.get (map (Engine.moved rid to why) L) rid = Some e'
    /\ Engine.status e' = to
    /\ Engine.id e' = Engine.id e
    /\ Engine.vendor e' = Engine.vendor e
    /\ Engine.stall e' = Engine.stall e
    /\ Engine.note e' = Engine.note e
    /\ Engine.token e' = Engine.token e
    /\ Engine.reason e' = match why with Some r => Some r | None => Engine.reason e end.
Proof.
  intros Hget. exists (Engine.moved rid to why e).
  rewrite get_after_moved, Hget. split; [reflexivity |].
  assert (Hid : Z.eqb (Engine.id e) rid = true).
  { unfold Engine.get in Hget. apply find_some in Hget. exact (proj2 Hget). }
  unfold Engine.moved. rewrite Hid. cbn. repeat split; reflexivity.
Qed.

End Transitions.

Lemma cancel_committed_inv (L L' : Engine.Ledger) (rid : Z) (ev : Engine.Event) :
  Engine.cancel L rid = (L', inr ev) ->
  exists e,
    Engine.get L rid = Some e
    /\ Engine.active (Engine.status e) = true
    /\ L' = map (Engine.moved rid Engine.Cancelled None) L.
Proof.
  unfold Engine.cancel.
  destruct (Engine.get L rid) as [e |] eqn:Hget; [| discriminate].
  destruct (Engine.active (Engine.status e)) eqn:Hact; [| discriminate].
  intros H. injection H as HL _. exists e. auto.
Qed.

Lemma reject_committed_inv (L L' : Engine.Ledger) (rid : Z)
    (why : option string) (ev : Engine.Event) :
  Engine.reject L rid why = (L', inr ev) ->
  exists e,
    Engine.get L rid = Some e
    /\ Engine.status e = Engine.Pending
    /\ L' = map (Engine.moved rid Engine.Rejected
                   (Some (match why with
                          | Some r => r
                          | None => "No reason provided"
                          end))) L.
Proof.
  unfold Engine.reject.
  destruct (Engine.get L rid) as [e |] eqn:Hget; [| discriminate].
  destruct (Engine.status e) eqn:Hst; try discriminate.
  intros H. injection H as HL _. exists e. auto.
Qed.

Lemma answer_resolves (describe : Engine.Error -> option string)
    (out : Engine.Ledger * (Engine.Error + Engine.Event)) :
  Engine.answer describe out = None -> exists ev, snd out = inr ev.
Proof.
  unfold Engine.answer. destruct (snd out) as [err | ev].
  - discriminate.
  - intros _. exists ev. reflexivity.
Qed.

(** C7. Cancelled and rejected reservations stay in the ledger, against
    the engine's cancel and reject of section 4.3.  A cancel or a reject
    that commits removes no record: the ledger keeps its length and the
    order of its ids, every record with another id is still there, and
    the record of the reservation is still found under its id, with the
    new status (Cancelled, Rejected with its reason), outside the active
    projection, and with its vendor, stall, note and token as before.
    When the staff page, served by these endpoints, reports a cancel or a
    reject as successful, the ledger holds the reservation with that new
    status. *)
Theorem cancelled_and_rejected_stay_in_ledger
    (describe : Engine.Error -> option string) (L : Engine.Ledger) (rid : Z) :
  (forall L' ev,
     Engine.cancel L rid = (L', inr ev) ->
     List.length L' = List.length L
     /\ map Engine.id L' = map Engine.id L
     /\ (forall x, In x L -> Engine.id x <> rid -> In x L')
     /\ exists e e',
          Engine.get L rid = Some e
          /\ Engine.get L' rid = Some e'
          /\ Engine.status e' = Engine.Cancelled
          /\ Engine.active (Engine.status e') = false
          /\ Engine.vendor e' = Engine.vendor e
          /\ Engine.stall e' = Engine.stall e
          /\ Engine.note e' = Engine.note e
          /\ Engine.token e' = Engine.token e)
  /\ (forall why L' ev,
        Engine.reject L rid why = (L', inr ev) ->
        List.length L' = List.length L
        /\ map Engine.id L' = map Engine.id L
        /\ (forall x, In x L -> Engine.id x <> rid -> In x L')
        /\ exists e e',
             Engine.get L rid = Some e
             /\ Engine.get L' rid = Some e'
             /\ Engine.status e' = Engine.Rejected
             /\ Engine.active (Engine.status e') = false
             /\ Engine.vendor e' = Engine.vendor e
             /\ Engine.stall e' = Engine.stall e
             /\ Engine.note e' = Engine.note e
             /\ Engine.reason e'
                = Some (match why with
                        | Some r => r
                        | None => "No reason provided"
                        end))
  /\ (forall w s res m,
        Reservation.id res = rid ->
        api w (EmployeeCancelReservation rid) = Engine.cancel_endpoint describe L rid ->
        In (ToastSuccess m)
           (effects (Reservations.click w s Reservations.CancelReservationButton res)) ->
        exists e',
          Engine.get (fst (Engine.cancel L rid)) rid = Some e'
          /\ Engine.status e' = Engine.Cancelled)
  /\ (forall w s res reason m,
        Reservation.id res = rid ->
        window_prompt w (Reservations.reject_question res) "" = Some reason ->
        api w (EmployeeRejectReservation rid (JS.or_else reason "No reason provided"))
        = Engine.reject_endpoint describe L rid
            (JS.or_else reason "No reason provided") ->
        In (ToastSuccess m)
           (effects (Reservations.click w s Reservations.RejectRequest res)) ->
        exists e',
          Engine.get (fst (Engine.reject L rid
                             (Some (JS.or_else reason "No reason provided"))))
                     rid = Some e'
          /\ Engine.status e' = Engine.Rejected
          /\ Engine.reason e' = Some (JS.or_else reason "No reason provided")).
Proof.
  split; [| split; [| split]].
  - intros L' ev Hok.
    destruct (cancel_committed_inv L L' rid ev Hok) as [e [Hget [_ HL']]]. subst L'.
    split; [apply length_map |]. split; [apply moved_ids |].
    split; [intros x Hx Hne; apply moved_others; assumption |].
    destruct (moved_target rid Engine.Cancelled None L e Hget)
      as [e' [Hg [Hs [_ [Hv [Hst [Hn [Ht _]]]]]]]].
    exists e, e'. rewrite Hs. repeat split; auto.
  - intros why L' ev Hok.
    destruct (reject_committed_inv L L' rid why ev Hok) as [e [Hget [_ HL']]]. subst L'.
    split; [apply length_map |]. split; [apply moved_ids |].
    split; [intros x Hx Hne; apply moved_others; assumption |].
    destruct (moved_target rid Engine.Rejected
                (Some (match why with Some r => r | None => "No reason provided" end))
                L e Hget)
      as [e' [Hg [Hs [_ [Hv [Hst [Hn [_ Hr]]]]]]]].
    exists e, e'. rewrite Hs. repeat split; auto.
  - intros w s res m Hid Hapi Hin. subst rid.
    destruct (window_confirm w (Reservations.cancel_question res)) eqn:Hc.
    + destruct (api w (EmployeeCancelReservation (Reservation.id res)))
        as [err |] eqn:Ha.
      * rewrite (cancel_refused w s res err Hc Ha) in Hin. cbn in Hin.
        destruct Hin as [H | [H | [H | [H | []]]]]; discriminate H.
      * symmetry in Hapi. unfold Engine.cancel_endpoint in Hapi.
        apply answer_resolves in Hapi. destruct Hapi as [ev Hev].
        destruct (Engine.cancel L (Reservation.id res)) as [L' out] eqn:Hcancel.
        cbn in Hev. subst out. cbn [fst].
        destruct (cancel_committed_inv L L' _ ev Hcancel) as [e [Hget [_ HL']]].
        subst L'.
        destruct (moved_target (Reservation.id res) Engine.Cancelled None L e Hget)
          as [e' [Hg [Hs _]]].
        exists e'. split; assumption.
    + rewrite (cancel_declined w s res Hc) in Hin. cbn in Hin.
      destruct Hin as [H | []]. discriminate H.
  - intros w s res reason m Hid Hp Hapi Hin. subst rid.
    destruct (api w (EmployeeRejectReservation (Reservation.id res)
                       (JS.or_else reason "No reason provided")))
      as [err |] eqn:Ha.
    + rewrite (reject_refused w s res reason err Hp Ha) in Hin. cbn in Hin.
      destruct Hin as [H | [H | [H | [H | []]]]]; discriminate H.
    + symmetry in Hapi. unfold Engine.reject_endpoint in Hapi.
      apply answer_resolves in Hapi. destruct Hapi as [ev Hev].
      destruct (Engine.reject L (Reservation.id res)
                  (Some (JS.or_else reason "No reason provided")))
        as [L' out] eqn:Hreject.
      cbn in Hev. subst out. cbn [fst].
      destruct (reject_committed_inv L L' _ _ ev Hreject) as [e [Hget [_ HL']]].
      subst L'.
      destruct (moved_target (Reservation.id res) Engine.Rejected
                  (Some (JS.or_else reason "No reason provided")) L e Hget)
        as [e' [Hg [Hs [_ [_ [_ [_ [_ Hr]]]]]]]].
      exists e'. repeat split; assumption.
Qed.

Lemma cancelled_and_rejected_stay_in_ledger_witness :
  map Engine.id (fst (Engine.cancel Examples.full_ledger 1))
  = [1; 2; 3; 4]%Z
  /\ exists e',
       Engine.get (fst (Engine.reject Examples.full_ledger 4 (Some "duplicate"))) 4
       = Some e'
       /\ Engine.status e' = Engine.Rejected.
Proof.
  destruct (cancelled_and_rejected_stay_in_ledger Examples.describe
              Examples.full_ledger 1) as [Hcancel _].
  destruct (cancelled_and_rejected_stay_in_ledger Examples.describe
              Examples.full_ledger 4) as [_ [Hreject _]].
  split.
  - destruct (Hcancel _ _ eq_refl) as [_ [Hids _]]. exact Hids.
  - destruct (Hreject (Some "duplicate") _ _ eq_refl)
      as [_ [_ [_ [e [e' [_ [Hg [Hs _]]]]]]]].
    exists e'. split; assumption.
Defined.

(** X30. The staff page drops what it cancelled or rejected: after a
    staff cancel or reject succeeds, the page's own reservations list is
    the old list without the entries that have the reservation's id: no
    entry with that id is left, and the entries with another id are kept,
    in their order. *)
Theorem cancel_and_reject_remove_from_local_list
    (w : World) (s : Reservations.State) (res : Reservation.t) :
  (window_confirm w (Reservations.cancel_question res) = true ->
   api w (EmployeeCancelReservation (Reservation.id res)) = None ->
   Reservations.reservations
     (final (Reservations.click w s Reservations.CancelReservationButton res))
   = Reservations.without res (Reservations.reservations s))
  /\ (forall reason,
        window_prompt w (Reservations.reject_question res) "" = Some reason ->
        api w (EmployeeRejectReservation (Reservation.id res)
                 (JS.or_else reason "No reason provided")) = None ->
        Reservations.reservations
          (final (Reservations.click w s Reservations.RejectRequest res))
        = Reservations.without res (Reservations.reservations s))
  /\ (forall x, In x (Reservations.without res (Reservations.reservations s))
                <-> In x (Reservations.reservations s)
                    /\ Reservation.id x <> Reservation.id res)
  /\ map Reservation.id (Reservations.without res (Reservations.reservations s))
     = filter (fun i => negb (Z.eqb i (Reservation.id res)))
              (map Reservation.id (Reservations.reservations s)).
Proof.
  split; [| split; [| split]].
  - intros Hc Ha. rewrite (cancel_resolved w s res Hc Ha). reflexivity.
  - intros reason Hp Ha. rewrite (reject_resolved w s res reason Hp Ha). reflexivity.
  - intros x. apply without_spec.
  - apply without_ids.
Qed.

Lemma cancel_and_reject_remove_from_local_list_witness :
  Reservations.reservations
    (final (Reservations.click Examples.agreeable Examples.staff_page
              Reservations.CancelReservationButton
              (Examples.res 1 10 "confirmed")))
  = [Examples.res 2 11 "pending"; Examples.res 3 12 "cancelled"]
  /\ Reservations.reservations
       (final (Reservations.click Examples.agreeable Examples.staff_page
                 Reservations.RejectRequest (Examples.res 2 11 "pending")))
     = [Examples.res 1 10 "confirmed"; Examples.res 3 12 "cancelled"].
Proof.
  split.
  - rewrite (proj1 (cancel_and_reject_remove_from_local_list
                      Examples.agreeable Examples.staff_page
                      (Examples.res 1 10 "confirmed")) eq_refl eq_refl).
    reflexivity.
  - rewrite (proj1 (proj2 (cancel_and_reject_remove_from_local_list
                             Examples.agreeable Examples.staff_page
                             (Examples.res 2 11 "pending"))) "" eq_refl eq_refl).
    reflexivity.
Defined.

(** ** How the vendor handlers run *)

Section VendorCancel.
Variable w : World.
Variable s : Dashboard.State.
Variable res : Reservation.t.

Lemma vendor_cancel_declined :
  window_confirm w (Dashboard.cancel_question res) = false ->
  Dashboard.handleCancelReservation w s res s
  = (Normal tt, s, [WindowConfirm (Dashboard.cancel_question res)]).
Proof. intros H. run_handler. rewrite H. reflexivity. Qed.

Lemma vendor_cancel_resolved :
  window_confirm w (Dashboard.cancel_question res) = true ->
  api w (CancelReservation (Reservation.id res)) = None ->
  Dashboard.handleCancelReservation w s res s
  = (Normal tt,
     Dashboard.mkState (Dashboard.reservations s) true
       (Dashboard.expandedReservation s),
     [WindowConfirm (Dashboard.cancel_question res);
      Api (CancelReservation (Reservation.id res));
      ToastSuccess "Reservation cancelled successfully";
      Spawn "fetchData"]).
Proof.
  intros H1 H2. run_handler. unfold Dashboard.setLoading, set.
  rewrite H1. cbn. rewrite H2. reflexivity.
Qed.

Lemma vendor_cancel_refused (e : JsError) :
  window_confirm w (Dashboard.cancel_question res) = true ->
  api w (CancelReservation (Reservation.id res)) = Some e ->
  Dashboard.handleCancelReservation w s res s
  = (Normal tt, s,
     [WindowConfirm (Dashboard.cancel_question res);
      Api (CancelReservation (Reservation.id res));
      ToastError (JS.opt_or_else (response_data_error e)
                                 "Failed to cancel reservation")]).
Proof. intros H1 H2. run_handler. rewrite H1. cbn. rewrite H2. reflexivity. Qed.

Lemma vendor_cancel_requests :
  window_confirm w (Dashboard.cancel_question res) = true ->
  requests (effects (Dashboard.handleCancelReservation w s res s))
  = [CancelReservation (Reservation.id res)].
Proof.
  intros Hc.
  destruct (api w (CancelReservation (Reservation.id res))) as [e |] eqn:Ha.
  - rewrite (vendor_cancel_refused e Hc Ha). reflexivity.
  - rewrite (vendor_cancel_resolved Hc Ha). reflexivity.
Qed.

End VendorCancel.

Lemma status_view_spec (res : Reservation.t) (e : Dashboard.Element) :
  In e (Dashboard.status_view res)
  <-> (Reservation.status res = "pending"
       /\ (e = Dashboard.AwaitingApproval \/ e = Dashboard.CancelRequestButton))
      \/ (Reservation.status res <> "pending"
          /\ Reservation.status res = "confirmed"
          /\ (e = Dashboard.QRCodeSection (Reservation.qr_data res)
              \/ e = Dashboard.DownloadQRButton
              \/ e = Dashboard.CancelBookingButton
              \/ e = Dashboard.ImportantInfo))
      \/ (Reservation.status res <> "pending"
          /\ Reservation.status res <> "confirmed"
          /\ e = Dashboard.CancelledNotice).
Proof.
  unfold Dashboard.status_view.
  destruct (String.eqb_spec (Reservation.status res) "pending") as [Hp | Hp];
    [| destruct (String.eqb_spec (Reservation.status res) "confirmed") as [Hc | Hc]];
    cbn; intuition (try discriminate; try congruence; auto).
Qed.

Lemma staff_cancel_requests (w : World) (s : Reservations.State)
    (res : Reservation.t) :
  window_confirm w (Reservations.cancel_question res) = true ->
  requests (effects (Reservations.click w s
                       Reservations.CancelReservationButton res))
  = [EmployeeCancelReservation (Reservation.id res)].
Proof.
  intros Hc.
  destruct (api w (EmployeeCancelReservation (Reservation.id res))) as [e |] eqn:Ha.
  - rewrite (cancel_refused w s res e Hc Ha). reflexivity.
  - rewrite (cancel_resolved w s res Hc Ha). reflexivity.
Qed.

(** The only requests a click on the approve button can issue. *)
Lemma approve_click_requests (w : World) (s : Reservations.State)
    (res : Reservation.t) :
  let t := requests (effects (Reservations.click w s
                                Reservations.ApproveRequest res)) in
  t = [] \/ t = [EmployeeApproveReservation (Reservation.id res)].
Proof.
  destruct (window_confirm w (Reservations.approve_question res)) eqn:Hc.
  - destruct (api w (EmployeeApproveReservation (Reservation.id res))) as [e |] eqn:Ha.
    + rewrite (approve_refused w s res e Hc Ha). right. reflexivity.
    + rewrite (approve_resolved w s res Hc Ha). right. reflexivity.
  - rewrite (approve_declined w s res Hc). left. reflexivity.
Qed.

(** ** The claims about cancelling and about the credential *)

(** C5, as the claim states it, fails on the staff page: for a pending
    reservation the page renders the approve and the reject button and no
    cancel button, and no button of its panel issues a cancel request. *)
Lemma staff_page_offers_no_cancel_for_pending :
  Reservations.panel Examples.staff_page (Examples.res 2 11 "pending")
  = [Reservations.ApproveRequest; Reservations.RejectRequest]
  /\ ~ In Reservations.CancelReservationButton
          (Reservations.buttons (Examples.res 2 11 "pending"))
  /\ forall b,
       In b (Reservations.panel Examples.staff_page (Examples.res 2 11 "pending")) ->
       ~ In (EmployeeCancelReservation 2)
            (requests (effects (Reservations.click Examples.agreeable
                                  Examples.staff_page b
                                  (Examples.res 2 11 "pending")))).
Proof.
  split; [reflexivity |]. split.
  - cbn. intros [H | [H | []]]; discriminate H.
  - intros b [Hb | [Hb | []]]; subst b; vm_compute;
      intros [H | []]; discriminate H.
Qed.

(** C5, amended. The vendor dashboard offers a cancel action exactly for the
    reservations whose status is 'pending' or 'confirmed', and a click on
    it, once confirmed in the dialog, issues the vendor cancel request for
    that reservation.  The staff page offers a cancel action exactly for
    the reservations whose status is 'confirmed' (a pending one gets approve
    and reject instead); a click on it, once confirmed, issues the staff
    cancel request, and no other button of the page issues one. *)
Theorem cancel_is_offered_by_status :
  (forall res,
     (exists e, In e (Dashboard.status_view res) /\ Dashboard.cancels e = true)
     <-> Reservation.status res = "pending" \/ Reservation.status res = "confirmed")
  /\ (forall w r e res,
        Dashboard.cancels e = true ->
        window_confirm w (Dashboard.cancel_question res) = true ->
        requests (effects (Dashboard.onClick w r e res r))
        = [CancelReservation (Reservation.id res)])
  /\ (forall w r e res,
        Dashboard.cancels e = false ->
        requests (effects (Dashboard.onClick w r e res r)) = [])
  /\ (forall res,
        In Reservations.CancelReservationButton (Reservations.buttons res)
        <-> Reservation.status res = "confirmed")
  /\ (forall w r res,
        window_confirm w (Reservations.cancel_question res) = true ->
        requests (effects (Reservations.click w r
                             Reservations.CancelReservationButton res))
        = [EmployeeCancelReservation (Reservation.id res)])
  /\ (forall w r b res q,
        In b (Reservations.panel r res) ->
        In (EmployeeCancelReservation q)
           (requests (effects (Reservations.click w r b res))) ->
        Reservation.status res = "confirmed").
Proof.
  split; [| split; [| split; [| split; [| split]]]].
  - intros res. split.
    + intros [e [He Hc]]. apply status_view_spec in He.
      destruct He as [[Hp _] | [[_ [Hs _]] | [_ [_ He]]]].
      * left. exact Hp.
      * right. exact Hs.
      * subst e. discriminate Hc.
    + intros [Hp | Hs].
      * exists Dashboard.CancelRequestButton. split; [| reflexivity].
        apply status_view_spec. left. split; [exact Hp | right; reflexivity].
      * exists Dashboard.CancelBookingButton. split; [| reflexivity].
        apply status_view_spec. right. left.
        split; [rewrite Hs; discriminate |].
        split; [exact Hs | right; right; left; reflexivity].
  - intros w r e res He Hc.
    destruct e; try discriminate He; cbn [Dashboard.onClick];
      apply vendor_cancel_requests; exact Hc.
  - intros w r e res He.
    destruct e; try discriminate He; reflexivity.
  - intros res. rewrite buttons_spec. split.
    + intros [[[H | H] _] | [_ H]]; [discriminate H | discriminate H | exact H].
    + intros H. right. split; [reflexivity | exact H].
  - intros w r res Hc. apply staff_cancel_requests. exact Hc.
  - intros w r b res q Hb Hq.
    apply panel_buttons in Hb. apply buttons_spec in Hb.
    destruct Hb as [[[Hb | Hb] _] | [_ Hs]]; [| | exact Hs]; subst b; exfalso.
    + destruct (approve_click_requests w r res) as [E | E];
        cbv zeta in E; rewrite E in Hq; cbn in Hq.
      * exact Hq.
      * destruct Hq as [Hq | []]. discriminate Hq.
    + destruct (reject_click_requests w r res) as [E | [reason E]];
        cbv zeta in E; rewrite E in Hq; cbn in Hq.
      * exact Hq.
      * destruct Hq as [Hq | []]. discriminate Hq.
Qed.

Lemma cancel_is_offered_by_status_witness :
  requests (effects (Dashboard.onClick Examples.agreeable Examples.vendor_page
                       Dashboard.CancelRequestButton
                       (Examples.res 2 11 "pending") Examples.vendor_page))
  = [CancelReservation 2]
  /\ requests (effects (Reservations.click Examples.agreeable Examples.staff_page
                          Reservations.CancelReservationButton
                          (Examples.res 1 10 "confirmed")))
     = [EmployeeCancelReservation 1].
Proof.
  destruct cancel_is_offered_by_status as [_ [Hv [_ [_ [Hs _]]]]].
  split.
  - apply (Hv Examples.agreeable Examples.vendor_page
              Dashboard.CancelRequestButton (Examples.res 2 11 "pending"));
      reflexivity.
  - apply (Hs Examples.agreeable Examples.staff_page
              (Examples.res 1 10 "confirmed")).
    reflexivity.
Defined.

(** C8. On the vendor dashboard the QR credential section is rendered
    exactly for a reservation whose status is 'confirmed', and it shows the
    reservation's own [qr_data]; the views of a pending reservation and of
    any other (cancelled) one hold no QR section, expanded or not. *)
Theorem qr_section_iff_confirmed :
  (forall res,
     (exists v, In (Dashboard.QRCodeSection v) (Dashboard.status_view res))
     <-> Reservation.status res = "confirmed")
  /\ (forall res v,
        In (Dashboard.QRCodeSection v) (Dashboard.status_view res) ->
        v = Reservation.qr_data res)
  /\ (forall r res,
        (exists v, In (Dashboard.QRCodeSection v) (Dashboard.expanded_content r res))
        <-> Dashboard.expandedReservation r = Some (Reservation.id res)
            /\ Reservation.status res = "confirmed")
  /\ (forall r res e,
        Reservation.status res <> "confirmed" ->
        In e (Dashboard.expanded_content r res) ->
        Dashboard.is_qr e = false).
Proof.
  assert (Hview : forall res,
            (exists v, In (Dashboard.QRCodeSection v) (Dashboard.status_view res))
            <-> Reservation.status res = "confirmed").
  { intros res. split.
    - intros [v Hv]. apply status_view_spec in Hv.
      destruct Hv as [[_ [H | H]] | [[_ [Hs _]] | [_ [_ H]]]];
        [discriminate H | discriminate H | exact Hs | discriminate H].
    - intros Hs. exists (Reservation.qr_data res).
      apply status_view_spec. right. left.
      split; [rewrite Hs; discriminate |].
      split; [exact Hs | left; reflexivity]. }
  split; [exact Hview |]. split; [| split].
  - intros res v Hv. apply status_view_spec in Hv.
    destruct Hv as [[_ [H | H]] | [[_ [_ [H | [H | [H | H]]]]] | [_ [_ H]]]];
      try discriminate H.
    injection H as ->. reflexivity.
  - intros r res. unfold Dashboard.expanded_content, JS.cell_is.
    destruct (Dashboard.expandedReservation r) as [m |].
    + destruct (Z.eqb_spec m (Reservation.id res)) as [-> | Hne].
      * rewrite Hview. intuition.
      * split.
        -- intros [v []].
        -- intros [H _]. injection H as H. contradiction.
    + split.
      * intros [v []].
      * intros [H _]. discriminate H.
  - intros r res e Hs He. unfold Dashboard.expanded_content in He.
    destruct (JS.cell_is _ _); [| destruct He].
    apply status_view_spec in He.
    destruct He as [[_ [H | H]] | [[_ [Hc _]] | [_ [_ H]]]];
      try (subst e; reflexivity).
    contradiction.
Qed.

Lemma qr_section_iff_confirmed_witness :
  (exists v, In (Dashboard.QRCodeSection v)
                (Dashboard.status_view (Examples.res 1 10 "confirmed")))
  /\ Dashboard.is_qr Dashboard.AwaitingApproval = false.
Proof.
  destruct qr_section_iff_confirmed as [Hview [_ [_ Hnot]]].
  split.
  - apply (proj2 (Hview (Examples.res 1 10 "confirmed"))). reflexivity.
  - apply (Hnot Examples.vendor_page (Examples.res 2 11 "pending")).
    + discriminate.
    + left. reflexivity.
Defined.

(** ** The claims about selecting a stall *)

Section SelectStall.
Variable r : Stalls.State.
Variable stall : Stall.t.

Lemma select_taken_stall :
  Stall.is_reserved stall = true ->
  Stalls.holds_confirmed (Stalls.userReservations r) stall = false ->
  Stalls.handleSelectStall r stall r
  = (Normal tt, r, [ToastError "This stall is already reserved"]).
Proof. intros H1 H2. run_handler. rewrite H1, H2. reflexivity. Qed.

Lemma select_own_stall :
  Stalls.holds_confirmed (Stalls.userReservations r) stall = true ->
  Stalls.handleSelectStall r stall r
  = (Normal tt, r, [ToastError "You have already reserved this stall"]).
Proof.
  intros H2. run_handler. rewrite H2.
  destruct (Stall.is_reserved stall); reflexivity.
Qed.

Lemma select_at_capacity :
  Stall.is_reserved stall = false ->
  Stalls.holds_confirmed (Stalls.userReservations r) stall = false ->
  (3 <= Stalls.confirmed_count (Stalls.userReservations r))%nat ->
  Stalls.handleSelectStall r stall r
  = (Normal tt, r, [ToastError "Maximum 3 stalls per business allowed"]).
Proof.
  intros H1 H2 H3. run_handler. rewrite H1, H2. cbn [andb negb].
  apply Nat.leb_le in H3. rewrite H3. reflexivity.
Qed.

Lemma select_free_stall :
  Stall.is_reserved stall = false ->
  Stalls.holds_confirmed (Stalls.userReservations r) stall = false ->
  (Stalls.confirmed_count (Stalls.userReservations r) < 3)%nat ->
  Stalls.handleSelectStall r stall r
  = (Normal tt,
     Stalls.mkState (Stalls.stalls r) (Stalls.filteredStalls r)
       (Stalls.selectedSize r) (Some stall) true (Stalls.userReservations r),
     []).
Proof.
  intros H1 H2 H3. run_handler. rewrite H1, H2. cbn [andb negb].
  apply Nat.leb_gt in H3. rewrite H3. reflexivity.
Qed.

Lemma card_click_reserved :
  Stall.is_reserved stall = true ->
  Stalls.card_onClick r stall r = (Normal tt, r, []).
Proof. intros H1. unfold Stalls.card_onClick. rewrite H1. reflexivity. Qed.

Lemma card_click_unreserved :
  Stall.is_reserved stall = false ->
  Stalls.card_onClick r stall r = Stalls.handleSelectStall r stall r.
Proof. intros H1. unfold Stalls.card_onClick. rewrite H1. reflexivity. Qed.

(** With three confirmed reservations no gesture goes through. *)
Lemma capped_select_outcome (g : Stalls.Gesture) :
  (3 <= Stalls.confirmed_count (Stalls.userReservations r))%nat ->
  exists t, Stalls.select g r stall = (Normal tt, r, t)
            /\ requests t = [].
Proof.
  intros Hcap.
  destruct (Stall.is_reserved stall) eqn:Hres;
    destruct (Stalls.holds_confirmed (Stalls.userReservations r) stall) eqn:Hown;
    destruct g; cbn [Stalls.select];
    rewrite ?(card_click_reserved Hres), ?(card_click_unreserved Hres),
            ?(select_own_stall Hown), ?(select_taken_stall Hres Hown),
            ?(select_at_capacity Hres Hown Hcap);
    eexists; split; reflexivity.
Qed.

End SelectStall.

(** C2, as the claim states it, fails: a vendor with three confirmed
    reservations who selects a further stall that somebody else holds is
    told that the stall is already reserved, not that the maximum of 3 is
    reached. *)
Lemma capped_vendor_gets_reserved_error :
  (3 <= Stalls.confirmed_count (Stalls.userReservations Examples.full_vendor))%nat
  /\ Stalls.holds_confirmed (Stalls.userReservations Examples.full_vendor)
       (Examples.stall 4 true) = false
  /\ effects (Stalls.handleSelectStall Examples.full_vendor (Examples.stall 4 true)
                Examples.full_vendor)
     = [ToastError "This stall is already reserved"]
  /\ ~ In (ToastError "Maximum 3 stalls per business allowed")
          (effects (Stalls.handleSelectStall Examples.full_vendor
                      (Examples.stall 4 true) Examples.full_vendor)).
Proof.
  split; [vm_compute; lia |]. split; [reflexivity |]. split; [reflexivity |].
  vm_compute. intros [H | []]. discriminate H.
Qed.

(** C2, amended. For a vendor whose reservation list holds 3 or more
    reservations with status 'confirmed', selecting any stall, on the map
    or on its card, is refused before any request is issued: the page state
    is unchanged (no stall selected, the modal not opened) and no API call
    is made.  The error shown is the maximum-3 error when the stall is not
    flagged [is_reserved] and the vendor holds no confirmed reservation on
    it. *)
Theorem capped_vendor_cannot_select
    (r : Stalls.State) (stall : Stall.t) (g : Stalls.Gesture) :
  (3 <= Stalls.confirmed_count (Stalls.userReservations r))%nat ->
  let o := Stalls.select g r stall in
  final o = r
  /\ Stalls.modal_open (final o) = Stalls.modal_open r
  /\ Stalls.selectedStall (final o) = Stalls.selectedStall r
  /\ requests (effects o) = []
  /\ (Stall.is_reserved stall = false ->
      Stalls.holds_confirmed (Stalls.userReservations r) stall = false ->
      effects o = [ToastError "Maximum 3 stalls per business allowed"]).
Proof.
  intros Hcap o. subst o.
  destruct (capped_select_outcome r stall g Hcap) as [t [E Ht]].
  split; [rewrite E; reflexivity |].
  split; [rewrite E; reflexivity |].
  split; [rewrite E; reflexivity |].
  split; [rewrite E; exact Ht |].
  intros Hres Hown.
  destruct g; cbn [Stalls.select];
    rewrite ?(card_click_unreserved r stall Hres),
            (select_at_capacity r stall Hres Hown Hcap);
    reflexivity.
Qed.

Lemma capped_vendor_cannot_select_witness :
  effects (Stalls.select Stalls.OnCard Examples.full_vendor (Examples.stall 5 false))
  = [ToastError "Maximum 3 stalls per business allowed"]
  /\ final (Stalls.select Stalls.OnMap Examples.full_vendor (Examples.stall 4 true))
     = Examples.full_vendor.
Proof.
  split.
  - apply (capped_vendor_cannot_select Examples.full_vendor (Examples.stall 5 false)
             Stalls.OnCard); [vm_compute; lia | reflexivity | reflexivity].
  - apply (capped_vendor_cannot_select Examples.full_vendor (Examples.stall 4 true)
             Stalls.OnMap). vm_compute; lia.
Defined.

(** C3, as the claim states it, fails on the stall card: a click on the
    card of a stall flagged [is_reserved] that the vendor does not hold is
    swallowed by the card's guard, so no already-reserved error is shown. *)
Lemma reserved_card_click_shows_no_error :
  Stall.is_reserved (Examples.stall 4 true) = true
  /\ Stalls.holds_confirmed (Stalls.userReservations Examples.new_vendor)
       (Examples.stall 4 true) = false
  /\ effects (Stalls.select Stalls.OnCard Examples.new_vendor (Examples.stall 4 true))
     = []
  /\ ~ In (ToastError "This stall is already reserved")
          (effects (Stalls.select Stalls.OnCard Examples.new_vendor
                      (Examples.stall 4 true))).
Proof.
  split; [reflexivity |]. split; [reflexivity |]. split; [reflexivity |].
  vm_compute. intros [].
Qed.

(** C3, amended. For a stall flagged [is_reserved] on which the vendor holds
    no confirmed reservation, a selection is refused and no reservation
    request is created, whichever way it is made: [handleSelectStall] shows
    the already-reserved error and returns, and the card's click guard does
    not call it and shows nothing; the page state is unchanged in both
    cases. *)
Theorem reserved_stall_cannot_be_selected (r : Stalls.State) (stall : Stall.t) :
  Stall.is_reserved stall = true ->
  Stalls.holds_confirmed (Stalls.userReservations r) stall = false ->
  Stalls.handleSelectStall r stall r
  = (Normal tt, r, [ToastError "This stall is already reserved"])
  /\ Stalls.card_onClick r stall r = (Normal tt, r, [])
  /\ forall g, final (Stalls.select g r stall) = r
               /\ Stalls.modal_open (final (Stalls.select g r stall))
                  = Stalls.modal_open r
               /\ requests (effects (Stalls.select g r stall)) = [].
Proof.
  intros Hres Hown.
  split; [apply select_taken_stall; assumption |].
  split; [apply card_click_reserved; assumption |].
  intros g. destruct g; cbn [Stalls.select].
  - rewrite (select_taken_stall r stall Hres Hown). repeat split; reflexivity.
  - rewrite (card_click_reserved r stall Hres). repeat split; reflexivity.
Qed.

Lemma reserved_stall_cannot_be_selected_witness :
  Stalls.handleSelectStall Examples.new_vendor (Examples.stall 4 true)
    Examples.new_vendor
  = (Normal tt, Examples.new_vendor, [ToastError "This stall is already reserved"]).
Proof.
  apply (reserved_stall_cannot_be_selected Examples.new_vendor
           (Examples.stall 4 true)); reflexivity.
Defined.

(** ** The approval step of the engine *)

Section Approval.
Variable issue : Z -> string.
Variable describe : Engine.Error -> option string.
Variable L : Engine.Ledger.
Variable rid : Z.

Lemma approve_capacity_exceeded (e : Engine.Entry) :
  Engine.get L rid = Some e ->
  Engine.status e = Engine.Pending ->
  Engine.stall_taken_by_other L e = false ->
  (3 <= Engine.confirmed_count L (Engine.vendor e))%nat ->
  Engine.approve issue L rid = (L, inl Engine.CapacityExceeded).
Proof.
  intros Hget Hst Hfree Hcap. unfold Engine.approve.
  rewrite Hget, Hst, Hfree.
  apply Nat.leb_le in Hcap. rewrite Hcap. reflexivity.
Qed.


Lemma approve_failure_keeps_ledger (err : Engine.Error) :
  snd (Engine.approve issue L rid) = inl err ->
  fst (Engine.approve issue L rid) = L.
Proof.
  unfold Engine.approve.
  destruct (Engine.get L rid) as [e |]; [| reflexivity].
  destruct (Engine.status e); try reflexivity.
  destruct (Engine.stall_taken_by_other L e); [reflexivity |].
  destruct (Nat.leb 3 (Engine.confirmed_count L (Engine.vendor e)));
    [reflexivity | discriminate].
Qed.




End Approval.






(** * Further properties of the pages *)

(** ** The staff handlers, whatever the answers *)

Lemma requests_cons (d : Effect) (t : list Effect) :
  requests (d :: t) = requests [d] ++ requests t.
Proof. destruct d; reflexivity. Qed.

(** The three ways a click on a button of the staff page ends: the dialog
    is declined, the request is accepted, the request is refused. *)
Lemma staff_click_cases (w : World) (s : Reservations.State)
    (b : Reservations.Button) (res : Reservation.t) :
  exists dialog,
    requests [dialog] = []
    /\ (forall m, dialog <> ToastSuccess m)
    /\ (Reservations.click w s b res = (Normal tt, s, [dialog])
        \/ (exists q l m,
              StaffView.target q = Some (Reservation.id res)
              /\ api w q = None
              /\ Reservations.click w s b res
                 = (Normal tt,
                    Reservations.mkState l (Reservations.filteredReservations s)
                      (Reservations.statusFilter s) None None,
                    [dialog; Api q; ToastSuccess m]))
        \/ (exists q e label,
              StaffView.target q = Some (Reservation.id res)
              /\ api w q = Some e
              /\ Reservations.click w s b res
                 = (Normal tt,
                    Reservations.mkState (Reservations.reservations s)
                      (Reservations.filteredReservations s)
                      (Reservations.statusFilter s)
                      (Reservations.expandedReservation s) None,
                    [dialog; Api q; ConsoleError label;
                     ToastError (JS.opt_or_else (response_data_error e)
                                   (StaffView.fallback_message b))]))).
Proof.
  destruct b.
  - exists (WindowConfirm (Reservations.approve_question res)).
    split; [reflexivity |]. split; [discriminate |].
    destruct (window_confirm w (Reservations.approve_question res)) eqn:Hc.
    + destruct (api w (EmployeeApproveReservation (Reservation.id res)))
        as [e |] eqn:Ha.
      * right. right. exists (EmployeeApproveReservation (Reservation.id res)), e.
        eexists. split; [reflexivity |]. split; [exact Ha |].
        apply (approve_refused w s res e Hc Ha).
      * right. left. exists (EmployeeApproveReservation (Reservation.id res)).
        do 2 eexists. split; [reflexivity |]. split; [exact Ha |].
        apply (approve_resolved w s res Hc Ha).
    + left. apply (approve_declined w s res Hc).
  - exists (WindowPrompt (Reservations.reject_question res) "").
    split; [reflexivity |]. split; [discriminate |].
    destruct (window_prompt w (Reservations.reject_question res) "")
      as [reason |] eqn:Hp.
    + destruct (api w (EmployeeRejectReservation (Reservation.id res)
                         (JS.or_else reason "No reason provided")))
        as [e |] eqn:Ha.
      * right. right.
        exists (EmployeeRejectReservation (Reservation.id res)
                  (JS.or_else reason "No reason provided")), e.
        eexists. split; [reflexivity |]. split; [exact Ha |].
        apply (reject_refused w s res reason e Hp Ha).
      * right. left.
        exists (EmployeeRejectReservation (Reservation.id res)
                  (JS.or_else reason "No reason provided")).
        do 2 eexists. split; [reflexivity |]. split; [exact Ha |].
        apply (reject_resolved w s res reason Hp Ha).
    + left. apply (reject_dismissed w s res Hp).
  - exists (WindowConfirm (Reservations.cancel_question res)).
    split; [reflexivity |]. split; [discriminate |].
    destruct (window_confirm w (Reservations.cancel_question res)) eqn:Hc.
    + destruct (api w (EmployeeCancelReservation (Reservation.id res)))
        as [e |] eqn:Ha.
      * right. right. exists (EmployeeCancelReservation (Reservation.id res)), e.
        eexists. split; [reflexivity |]. split; [exact Ha |].
        apply (cancel_refused w s res e Hc Ha).
      * right. left. exists (EmployeeCancelReservation (Reservation.id res)).
        do 2 eexists. split; [reflexivity |]. split; [exact Ha |].
        apply (cancel_resolved w s res Hc Ha).
    + left. apply (cancel_declined w s res Hc).
Qed.

(** X1. No staff handler leaves the [cancelling] marker set: after a click
    on any button, whatever the user and the server answer, either the page
    state is exactly as before (the dialog was declined) or [cancelling] is
    back to null; so a page whose marker was null keeps it null. *)
Theorem staff_click_resets_cancelling
    (w : World) (s : Reservations.State) (b : Reservations.Button)
    (res : Reservation.t) :
  let s' := final (Reservations.click w s b res) in
  (s' = s \/ Reservations.cancelling s' = None)
  /\ (Reservations.cancelling s = None -> Reservations.cancelling s' = None).
Proof.
  cbv zeta.
  destruct (staff_click_cases w s b res)
    as [dialog [_ [_ [E | [[q [l [m [_ [_ E]]]]] | [q [e [label [_ [_ E]]]]]]]]]];
    rewrite E; cbn; auto.
Qed.

(** X2. A refused request changes nothing on the staff page but the
    marker: when the request a click issued is rejected by the server, the
    reservations list, the filtered list, the filter and the expanded
    reservation are as before, [cancelling] is null, no success is
    reported, and the error toast carries the server's message, or the
    handler's own when the server gives none or an empty one. *)
Theorem staff_click_failure_keeps_page
    (w : World) (s : Reservations.State) (b : Reservations.Button)
    (res : Reservation.t) (q : ApiRequest) (e : JsError) :
  In q (requests (effects (Reservations.click w s b res))) ->
  api w q = Some e ->
  let o := Reservations.click w s b res in
  Reservations.reservations (final o) = Reservations.reservations s
  /\ Reservations.filteredReservations (final o) = Reservations.filteredReservations s
  /\ Reservations.statusFilter (final o) = Reservations.statusFilter s
  /\ Reservations.expandedReservation (final o) = Reservations.expandedReservation s
  /\ Reservations.cancelling (final o) = None
  /\ (forall m, ~ In (ToastSuccess m) (effects o))
  /\ In (ToastError
           (match response_data_error e with
            | Some m => if String.eqb m "" then StaffView.fallback_message b else m
            | None => StaffView.fallback_message b
            end))
        (effects o).
Proof.
  intros Hq Ha. cbv zeta.
  destruct (staff_click_cases w s b res)
    as [dialog [Hd [Hns [E | [[q' [l [m [_ [Ha' E]]]]] | [q' [e' [label [_ [Ha' E]]]]]]]]]];
    rewrite E in *; cbn [effects final fst snd] in *;
    rewrite requests_cons, Hd in Hq; cbn in Hq.
  - contradiction.
  - destruct Hq as [Hq | []]; subst q'; congruence.
  - destruct Hq as [Hq | []]. subst q'. assert (e' = e) by congruence. subst e'.
    cbn. repeat split; try reflexivity.
    + intros m [H | [H | [H | [H | []]]]]; try discriminate H.
      exact (Hns m H).
    + right. right. right. left. reflexivity.
Qed.

Lemma staff_click_failure_keeps_page_witness :
  Reservations.reservations
    (final (Reservations.click Examples.served Examples.fourth_request
              Reservations.ApproveRequest (Examples.res 4 13 "pending")))
  = [Examples.res 4 13 "pending"]
  /\ In (ToastError "Maximum 3 stalls per business allowed")
        (effects (Reservations.click Examples.served Examples.fourth_request
                    Reservations.ApproveRequest (Examples.res 4 13 "pending"))).
Proof.
  pose proof (staff_click_failure_keeps_page Examples.served Examples.fourth_request
                Reservations.ApproveRequest (Examples.res 4 13 "pending")
                (EmployeeApproveReservation 4)
                {| response_data_error := Some "Maximum 3 stalls per business allowed" |})
    as H.
  destruct H as [H1 [_ [_ [_ [_ [_ H7]]]]]].
  - vm_compute. left. reflexivity.
  - reflexivity.
  - split; [exact H1 | exact H7].
Defined.

(** X3. A click on a button of the staff page issues at most one request,
    and that request is about the clicked reservation and no other. *)
Theorem staff_click_requests_only_clicked
    (w : World) (s : Reservations.State) (b : Reservations.Button)
    (res : Reservation.t) :
  let t := requests (effects (Reservations.click w s b res)) in
  (List.length t <= 1)%nat
  /\ forall q, In q t -> StaffView.target q = Some (Reservation.id res).
Proof.
  cbv zeta.
  destruct (staff_click_cases w s b res)
    as [dialog [Hd [_ [E | [[q' [l [m [Ht [_ E]]]]] | [q' [e' [label [Ht [_ E]]]]]]]]]];
    rewrite E; cbn [effects snd]; rewrite requests_cons, Hd; cbn.
  - split; [lia | tauto].
  - split; [lia |]. intros q [<- | []]. exact Ht.
  - split; [lia |]. intros q [<- | []]. exact Ht.
Qed.

(** X4. Declining the confirmation dialog of approve or of cancel is a
    no-op: no request is issued and the page state is as before. *)
Theorem staff_confirm_declined_is_noop
    (w : World) (s : Reservations.State) (res : Reservation.t) :
  (window_confirm w (Reservations.approve_question res) = false ->
   let o := Reservations.handleApproveReservation w s res s in
   final o = s /\ requests (effects o) = [])
  /\ (window_confirm w (Reservations.cancel_question res) = false ->
      let o := Reservations.handleCancelReservation w s res s in
      final o = s /\ requests (effects o) = []).
Proof.
  split; intros Hc o; subst o.
  - change (Reservations.handleApproveReservation w s res s)
      with (Reservations.click w s Reservations.ApproveRequest res).
    rewrite (approve_declined w s res Hc). split; reflexivity.
  - change (Reservations.handleCancelReservation w s res s)
      with (Reservations.click w s Reservations.CancelReservationButton res).
    rewrite (cancel_declined w s res Hc). split; reflexivity.
Qed.

Lemma staff_confirm_declined_is_noop_witness :
  final (Reservations.handleCancelReservation
           {| window_confirm := fun _ => false;
              window_prompt := fun _ _ => None;
              api := fun _ => None |}
           Examples.staff_page (Examples.res 1 10 "confirmed") Examples.staff_page)
  = Examples.staff_page.
Proof.
  apply (proj2 (staff_confirm_declined_is_noop
                  {| window_confirm := fun _ => false;
                     window_prompt := fun _ _ => None;
                     api := fun _ => None |}
                  Examples.staff_page (Examples.res 1 10 "confirmed"))).
  reflexivity.
Defined.

(** ** The filter of the staff page *)

Lemma refiltered_eq (s : Reservations.State) :
  StaffView.refiltered s
  = Reservations.mkState (Reservations.reservations s)
      (if String.eqb (Reservations.statusFilter s) "all"
       then Reservations.reservations s
       else filter (fun x => String.eqb (Reservation.status x)
                               (Reservations.statusFilter s))
                   (Reservations.reservations s))
      (Reservations.statusFilter s) (Reservations.expandedReservation s)
      (Reservations.cancelling s).
Proof.
  unfold StaffView.refiltered, Reservations.filterReservations.
  destruct (String.eqb (Reservations.statusFilter s) "all"); reflexivity.
Qed.

(** X5. What the filter effect shows: after it ran, the filtered list holds
    exactly the reservations of the list that the filter admits, all of
    them under 'all' and those whose status equals the filter otherwise;
    the other cells are untouched, and running the effect again changes
    nothing. *)
Theorem refiltered_shows_matching (s : Reservations.State) :
  let s' := StaffView.refiltered s in
  Reservations.reservations s' = Reservations.reservations s
  /\ Reservations.statusFilter s' = Reservations.statusFilter s
  /\ Reservations.expandedReservation s' = Reservations.expandedReservation s
  /\ Reservations.cancelling s' = Reservations.cancelling s
  /\ (forall x, In x (Reservations.filteredReservations s')
                <-> In x (Reservations.reservations s)
                    /\ (Reservations.statusFilter s = "all"
                        \/ Reservation.status x = Reservations.statusFilter s))
  /\ StaffView.refiltered s' = s'.
Proof.
  cbv zeta. rewrite (refiltered_eq s).
  cbn [Reservations.reservations Reservations.statusFilter
       Reservations.expandedReservation Reservations.cancelling
       Reservations.filteredReservations].
  split; [reflexivity |]. split; [reflexivity |].
  split; [reflexivity |]. split; [reflexivity |]. split.
  - intros x.
    destruct (String.eqb_spec (Reservations.statusFilter s) "all") as [Hall | Hall].
    + tauto.
    + rewrite filter_In, String.eqb_eq. tauto.
  - rewrite refiltered_eq.
    cbn [Reservations.reservations Reservations.statusFilter
         Reservations.expandedReservation Reservations.cancelling
         Reservations.filteredReservations].
    reflexivity.
Qed.

(** X6. Approve and the filter together: once an approve succeeded and the
    filter effect ran, the approved reservation is gone from the list shown
    under the 'pending' filter, and it is shown, as confirmed, under 'all'
    and under 'confirmed' when it was in the list. *)
Theorem approved_reservation_leaves_pending_filter
    (w : World) (s : Reservations.State) (res : Reservation.t) :
  window_confirm w (Reservations.approve_question res) = true ->
  api w (EmployeeApproveReservation (Reservation.id res)) = None ->
  let s' := StaffView.refiltered
              (final (Reservations.click w s Reservations.ApproveRequest res)) in
  (Reservations.statusFilter s = "pending" ->
   forall x, In x (Reservations.filteredReservations s') ->
             Reservation.id x <> Reservation.id res)
  /\ (Reservations.statusFilter s = "all" \/ Reservations.statusFilter s = "confirmed" ->
      In res (Reservations.reservations s) ->
      In (Reservation.with_status res "confirmed")
         (Reservations.filteredReservations s')).
Proof.
  intros Hc Ha s'. subst s'.
  rewrite (approve_resolved w s res Hc Ha). cbn [final fst snd].
  rewrite refiltered_eq.
  cbn [Reservations.reservations Reservations.statusFilter
       Reservations.filteredReservations].
  split.
  - intros Hf x Hx Hid. rewrite Hf in Hx. cbn in Hx.
    apply filter_In in Hx. destruct Hx as [Hx Hs].
    pose proof (confirmed_in_target res _ x Hx Hid) as Hst.
    rewrite Hst in Hs. discriminate Hs.
  - intros Hf Hin.
    pose proof (confirmed_in_present res _ Hin) as Hp.
    destruct Hf as [Hf | Hf]; rewrite Hf; cbn.
    + exact Hp.
    + apply filter_In. split; [exact Hp | reflexivity].
Qed.

Lemma approved_reservation_leaves_pending_filter_witness :
  Reservations.filteredReservations
    (StaffView.refiltered
       (final (Reservations.click Examples.agreeable
                 (Reservations.mkState
                    [Examples.res 1 10 "confirmed"; Examples.res 2 11 "pending"]
                    [Examples.res 2 11 "pending"] "pending" (Some 2%Z) None)
                 Reservations.ApproveRequest (Examples.res 2 11 "pending"))))
  = []
  /\ forall x,
       In x (Reservations.filteredReservations
               (StaffView.refiltered
                  (final (Reservations.click Examples.agreeable
                            (Reservations.mkState
                               [Examples.res 1 10 "confirmed";
                                Examples.res 2 11 "pending"]
                               [Examples.res 2 11 "pending"] "pending"
                               (Some 2%Z) None)
                            Reservations.ApproveRequest
                            (Examples.res 2 11 "pending"))))) ->
       Reservation.id x <> 2%Z.
Proof.
  split; [reflexivity |].
  apply (proj1 (approved_reservation_leaves_pending_filter Examples.agreeable
                  (Reservations.mkState
                     [Examples.res 1 10 "confirmed"; Examples.res 2 11 "pending"]
                     [Examples.res 2 11 "pending"] "pending" (Some 2%Z) None)
                  (Examples.res 2 11 "pending") eq_refl eq_refl)).
  reflexivity.
Defined.

(** X7. Expanding is exclusive: a click on the header of a reservation
    closes it when it was the expanded one and expands it otherwise; in
    both cases no reservation with another id has its panel rendered, and
    the lists, the filter and the marker are untouched. *)
Theorem toggle_expands_at_most_one (r : Reservations.State) (res : Reservation.t) :
  let r' := final (StaffView.toggleExpanded r res r) in
  (Reservations.expandedReservation r = Some (Reservation.id res) ->
   Reservations.expandedReservation r' = None
   /\ forall res', Reservations.panel r' res' = [])
  /\ (Reservations.expandedReservation r <> Some (Reservation.id res) ->
      Reservations.expandedReservation r' = Some (Reservation.id res)
      /\ Reservations.panel r' res = Reservations.buttons res)
  /\ (forall res', Reservation.id res' <> Reservation.id res ->
                   Reservations.panel r' res' = [])
  /\ Reservations.reservations r' = Reservations.reservations r
  /\ Reservations.filteredReservations r' = Reservations.filteredReservations r
  /\ Reservations.statusFilter r' = Reservations.statusFilter r
  /\ Reservations.cancelling r' = Reservations.cancelling r.
Proof.
  cbv zeta.
  unfold StaffView.toggleExpanded, Reservations.setExpandedReservation, set, final,
    Reservations.panel, JS.cell_is.
  cbn [fst snd Reservations.expandedReservation Reservations.reservations
       Reservations.filteredReservations Reservations.statusFilter
       Reservations.cancelling].
  assert (Hothers : forall res',
            Reservation.id res' <> Reservation.id res ->
            (if Z.eqb (Reservation.id res) (Reservation.id res')
             then Reservations.buttons res' else []) = []).
  { intros res' Hid.
    destruct (Z.eqb_spec (Reservation.id res) (Reservation.id res'));
      [congruence | reflexivity]. }
  destruct (Reservations.expandedReservation r) as [m |].
  - destruct (Z.eqb_spec m (Reservation.id res)) as [-> | Hne].
    + split; [intros _; split; [reflexivity | intros res'; reflexivity] |].
      split; [intros Hx; contradiction |].
      split; [intros res' _; reflexivity |].
      repeat split; reflexivity.
    + split; [intros Hx; injection Hx as Hx; contradiction |].
      split; [intros _; split; [reflexivity | rewrite Z.eqb_refl; reflexivity] |].
      split; [exact Hothers |].
      repeat split; reflexivity.
  - split; [intros Hx; discriminate Hx |].
    split; [intros _; split; [reflexivity | rewrite Z.eqb_refl; reflexivity] |].
    split; [exact Hothers |].
    repeat split; reflexivity.
Qed.

(** X8. Loading the reservations is all or nothing: when the read
    resolves, the list is the server's data, nothing is reported and the
    other cells of the page are as before; when it is rejected, the page
    keeps its list and everything else, and one 'Failed to load
    reservations' toast is shown; [loading] ends false either way. *)
Theorem fetchReservations_outcomes
    (server : Response (list Reservation.t)) (s : StaffView.State) :
  let o := StaffView.fetchReservations server s in
  StaffView.loading (final o) = false
  /\ (forall data, server = Resolved data ->
        Reservations.reservations (StaffView.page (final o)) = data
        /\ Reservations.filteredReservations (StaffView.page (final o))
           = Reservations.filteredReservations (StaffView.page s)
        /\ Reservations.statusFilter (StaffView.page (final o))
           = Reservations.statusFilter (StaffView.page s)
        /\ Reservations.expandedReservation (StaffView.page (final o))
           = Reservations.expandedReservation (StaffView.page s)
        /\ Reservations.cancelling (StaffView.page (final o))
           = Reservations.cancelling (StaffView.page s)
        /\ effects o = [])
  /\ (forall e, server = Rejected e ->
        StaffView.page (final o) = StaffView.page s
        /\ effects o = [ToastError "Failed to load reservations"; ConsoleError ""]).
Proof.
  cbv zeta. destruct server as [data | e].
  - split; [reflexivity |]. split.
    + intros d H. injection H as <-. repeat split; reflexivity.
    + intros e H. discriminate H.
  - split; [reflexivity |]. split.
    + intros d H. discriminate H.
    + intros e' H. split; reflexivity.
Qed.

Lemma fetchReservations_outcomes_witness :
  Reservations.reservations
    (StaffView.page
       (final (StaffView.fetchReservations
                 (Resolved [Examples.res 3 12 "cancelled"])
                 (StaffView.mkState Examples.staff_page false))))
  = [Examples.res 3 12 "cancelled"].
Proof.
  apply (proj1 (proj2 (fetchReservations_outcomes
                         (Resolved [Examples.res 3 12 "cancelled"])
                         (StaffView.mkState Examples.staff_page false)))
           [Examples.res 3 12 "cancelled"] eq_refl).
Defined.

Lemma staff_click_resets_cancelling_witness :
  Reservations.cancelling
    (final (Reservations.click Examples.served Examples.fourth_request
              Reservations.ApproveRequest (Examples.res 4 13 "pending")))
  = None.
Proof.
  apply (proj2 (staff_click_resets_cancelling Examples.served Examples.fourth_request
                  Reservations.ApproveRequest (Examples.res 4 13 "pending"))).
  reflexivity.
Defined.

Lemma staff_click_requests_only_clicked_witness :
  StaffView.target (EmployeeRejectReservation 2 "No reason provided") = Some 2%Z.
Proof.
  apply (proj2 (staff_click_requests_only_clicked Examples.agreeable
                  Examples.staff_page Reservations.RejectRequest
                  (Examples.res 2 11 "pending"))).
  vm_compute. left. reflexivity.
Defined.

Lemma toggle_expands_at_most_one_witness :
  Reservations.expandedReservation
    (final (StaffView.toggleExpanded Examples.staff_page
              (Examples.res 2 11 "pending") Examples.staff_page))
  = None
  /\ Reservations.panel
       (final (StaffView.toggleExpanded Examples.staff_page
                 (Examples.res 1 10 "confirmed") Examples.staff_page))
       (Examples.res 2 11 "pending")
     = [].
Proof.
  split.
  - apply (proj1 (toggle_expands_at_most_one Examples.staff_page
                    (Examples.res 2 11 "pending"))).
    reflexivity.
  - apply (proj1 (proj2 (proj2 (toggle_expands_at_most_one Examples.staff_page
                                  (Examples.res 1 10 "confirmed"))))).
    discriminate.
Defined.

(** ** Selecting and requesting a stall *)

(** X9. When a selection goes through: [handleSelectStall] selects the
    stall and opens the reservation modal exactly when the stall is not
    flagged [is_reserved], the vendor holds no confirmed reservation on it,
    and fewer than 3 of the vendor's reservations are confirmed (pending
    ones do not count).  In every other case the page state is unchanged
    and exactly one error toast is shown.  No request is issued either
    way. *)
Theorem select_opens_modal_iff (r : Stalls.State) (stall : Stall.t) :
  let o := Stalls.handleSelectStall r stall r in
  let free :=
    Stall.is_reserved stall = false
    /\ Stalls.holds_confirmed (Stalls.userReservations r) stall = false
    /\ (Stalls.confirmed_count (Stalls.userReservations r) < 3)%nat in
  (free ->
   Stalls.selectedStall (final o) = Some stall
   /\ Stalls.showModal (final o) = true
   /\ Stalls.userReservations (final o) = Stalls.userReservations r
   /\ Stalls.stalls (final o) = Stalls.stalls r
   /\ effects o = [])
  /\ (~ free -> final o = r /\ exists m, effects o = [ToastError m])
  /\ requests (effects o) = [].
Proof.
  cbv zeta.
  destruct (Stall.is_reserved stall) eqn:Hres;
    destruct (Stalls.holds_confirmed (Stalls.userReservations r) stall) eqn:Hown.
  - rewrite (select_own_stall r stall Hown).
    split; [intros [H _]; discriminate H |].
    split; [intros _; split; [reflexivity | eexists; reflexivity] | reflexivity].
  - rewrite (select_taken_stall r stall Hres Hown).
    split; [intros [H _]; discriminate H |].
    split; [intros _; split; [reflexivity | eexists; reflexivity] | reflexivity].
  - rewrite (select_own_stall r stall Hown).
    split; [intros [_ [H _]]; discriminate H |].
    split; [intros _; split; [reflexivity | eexists; reflexivity] | reflexivity].
  - destruct (Nat.leb_spec 3 (Stalls.confirmed_count (Stalls.userReservations r)))
      as [Hcap | Hcap].
    + rewrite (select_at_capacity r stall Hres Hown Hcap).
      split; [intros [_ [_ H]]; lia |].
      split; [intros _; split; [reflexivity | eexists; reflexivity] | reflexivity].
    + rewrite (select_free_stall r stall Hres Hown Hcap).
      split; [intros _; repeat split; reflexivity |].
      split; [intros H; exfalso; apply H; auto | reflexivity].
Qed.

Lemma select_opens_modal_iff_witness :
  Stalls.showModal
    (final (Stalls.handleSelectStall
              (Stalls.mkState [Examples.stall 5 false] [Examples.stall 5 false]
                 "all" None false
                 [Examples.res 1 1 "confirmed"; Examples.res 2 2 "pending";
                  Examples.res 3 3 "pending"; Examples.res 4 4 "pending"])
              (Examples.stall 5 false)
              (Stalls.mkState [Examples.stall 5 false] [Examples.stall 5 false]
                 "all" None false
                 [Examples.res 1 1 "confirmed"; Examples.res 2 2 "pending";
                  Examples.res 3 3 "pending"; Examples.res 4 4 "pending"])))
  = true.
Proof.
  apply (proj1 (select_opens_modal_iff
                  (Stalls.mkState [Examples.stall 5 false] [Examples.stall 5 false]
                     "all" None false
                     [Examples.res 1 1 "confirmed"; Examples.res 2 2 "pending";
                      Examples.res 3 3 "pending"; Examples.res 4 4 "pending"])
                  (Examples.stall 5 false))).
  split; [reflexivity |]. split; [reflexivity |]. vm_compute. lia.
Defined.

Section ConfirmReservation.
Variable w : World.
Variable r : Stalls.State.
Variable notes : string.

Lemma confirm_without_stall :
  Stalls.selectedStall r = None ->
  Stalls.handleConfirmReservation w r notes r
  = (Normal tt, r, [ToastError "Reservation failed"]).
Proof.
  intros H. run_handler. rewrite H. reflexivity.
Qed.

Lemma confirm_resolved (st : Stall.t) :
  Stalls.selectedStall r = Some st ->
  api w (CreateReservation (Stall.id st) notes) = None ->
  Stalls.handleConfirmReservation w r notes r
  = (Normal tt,
     Stalls.mkState (Stalls.stalls r) (Stalls.filteredStalls r)
       (Stalls.selectedSize r) (Some st) false
       (Stalls.userReservations r),
     [Api (CreateReservation (Stall.id st) notes);
      ToastSuccess "Stall reserved successfully! Check your email.";
      Spawn "fetchStalls"; Spawn "fetchUserReservations"]).
Proof.
  intros H Ha. run_handler. rewrite H. cbn. rewrite Ha. cbn. rewrite H. reflexivity.
Qed.

Lemma confirm_refused (st : Stall.t) (e : JsError) :
  Stalls.selectedStall r = Some st ->
  api w (CreateReservation (Stall.id st) notes) = Some e ->
  Stalls.handleConfirmReservation w r notes r
  = (Normal tt, r,
     [Api (CreateReservation (Stall.id st) notes);
      ToastError (JS.opt_or_else (response_data_error e) "Reservation failed")]).
Proof.
  intros H Ha. run_handler. rewrite H. cbn. rewrite Ha. reflexivity.
Qed.

End ConfirmReservation.

(** X10. What confirming the modal does.  With a selected stall it issues
    exactly one create-reservation request, for that stall and with the
    notes typed; when the request resolves the modal is closed and both
    lists are refreshed, when it is refused the page state is unchanged
    (the modal stays open) and the error toast carries the server's
    message or 'Reservation failed'.  With no stall selected no request is
    issued at all and 'Reservation failed' is shown. *)
Theorem confirm_reservation_outcomes
    (w : World) (r : Stalls.State) (notes : string) :
  let o := Stalls.handleConfirmReservation w r notes r in
  (Stalls.selectedStall r = None ->
   final o = r /\ requests (effects o) = []
   /\ effects o = [ToastError "Reservation failed"])
  /\ (forall st, Stalls.selectedStall r = Some st ->
        requests (effects o) = [CreateReservation (Stall.id st) notes]
        /\ (api w (CreateReservation (Stall.id st) notes) = None ->
            Stalls.showModal (final o) = false
            /\ Stalls.selectedStall (final o) = Some st
            /\ Stalls.userReservations (final o) = Stalls.userReservations r
            /\ In (Spawn "fetchStalls") (effects o)
            /\ In (Spawn "fetchUserReservations") (effects o))
        /\ (forall e, api w (CreateReservation (Stall.id st) notes) = Some e ->
              final o = r
              /\ In (ToastError (JS.opt_or_else (response_data_error e)
                                   "Reservation failed")) (effects o)
              /\ forall m, ~ In (ToastSuccess m) (effects o))).
Proof.
  cbv zeta. split.
  - intros H. rewrite (confirm_without_stall w r notes H). repeat split; reflexivity.
  - intros st H.
    destruct (api w (CreateReservation (Stall.id st) notes)) as [e |] eqn:Ha.
    + rewrite (confirm_refused w r notes st e H Ha).
      split; [reflexivity |]. split; [intros Hx; discriminate Hx |].
      intros e' He'. injection He' as <-.
      split; [reflexivity |]. split; [right; left; reflexivity |].
      intros m [Hm | [Hm | []]]; discriminate Hm.
    + rewrite (confirm_resolved w r notes st H Ha).
      split; [reflexivity |]. split.
      * intros _. cbn.
        repeat split; try reflexivity; auto.
      * intros e He. discriminate He.
Qed.

Lemma confirm_reservation_outcomes_witness :
  effects (Stalls.handleConfirmReservation Examples.agreeable Examples.new_vendor
             "two tables" Examples.new_vendor)
  = [ToastError "Reservation failed"]
  /\ requests
       (effects (Stalls.handleConfirmReservation Examples.agreeable
                   (Stalls.mkState [Examples.stall 5 false] [Examples.stall 5 false]
                      "all" (Some (Examples.stall 5 false)) true [])
                   "two tables"
                   (Stalls.mkState [Examples.stall 5 false] [Examples.stall 5 false]
                      "all" (Some (Examples.stall 5 false)) true [])))
     = [CreateReservation 5 "two tables"]
  /\ Stalls.showModal
       (final (Stalls.handleConfirmReservation Examples.agreeable
                 (Stalls.mkState [Examples.stall 5 false] [Examples.stall 5 false]
                    "all" (Some (Examples.stall 5 false)) true [])
                 "two tables"
                 (Stalls.mkState [Examples.stall 5 false] [Examples.stall 5 false]
                    "all" (Some (Examples.stall 5 false)) true [])))
     = false.
Proof.
  split.
  - apply (proj1 (confirm_reservation_outcomes Examples.agreeable
                    Examples.new_vendor "two tables")).
    reflexivity.
  - destruct (proj2 (confirm_reservation_outcomes Examples.agreeable
                       (Stalls.mkState [Examples.stall 5 false]
                          [Examples.stall 5 false] "all"
                          (Some (Examples.stall 5 false)) true [])
                       "two tables")
                (Examples.stall 5 false) eq_refl) as [Hreq [Hok _]].
    split; [exact Hreq |]. exact (proj1 (Hok eq_refl)).
Defined.

(** X11. Select, then confirm: when a selection went through, confirming
    the modal of the new render requests a reservation of exactly the stall
    that was selected, with the notes typed, and a resolved request closes
    the modal again. *)
Theorem select_then_confirm_requests_that_stall
    (w : World) (r : Stalls.State) (stall : Stall.t) (notes : string) :
  Stall.is_reserved stall = false ->
  Stalls.holds_confirmed (Stalls.userReservations r) stall = false ->
  (Stalls.confirmed_count (Stalls.userReservations r) < 3)%nat ->
  let r' := final (Stalls.handleSelectStall r stall r) in
  let o := Stalls.handleConfirmReservation w r' notes r' in
  Stalls.modal_open r' = true
  /\ requests (effects o) = [CreateReservation (Stall.id stall) notes]
  /\ (api w (CreateReservation (Stall.id stall) notes) = None ->
      Stalls.modal_open (final o) = false).
Proof.
  intros Hres Hown Hcap r' o. subst o r'.
  rewrite (select_free_stall r stall Hres Hown Hcap). cbn [final fst snd].
  split; [reflexivity |].
  set (r' := Stalls.mkState (Stalls.stalls r) (Stalls.filteredStalls r)
               (Stalls.selectedSize r) (Some stall) true
               (Stalls.userReservations r)).
  assert (Hsel : Stalls.selectedStall r' = Some stall) by reflexivity.
  destruct (api w (CreateReservation (Stall.id stall) notes)) as [e |] eqn:Ha.
  - rewrite (confirm_refused w r' notes stall e Hsel Ha).
    split; [reflexivity | intros H; discriminate H].
  - rewrite (confirm_resolved w r' notes stall Hsel Ha).
    split; [reflexivity | intros _; reflexivity].
Qed.

Lemma select_then_confirm_requests_that_stall_witness :
  requests
    (effects (Stalls.handleConfirmReservation Examples.agreeable
                (final (Stalls.handleSelectStall Examples.new_vendor
                          (Examples.stall 5 false) Examples.new_vendor))
                "two tables"
                (final (Stalls.handleSelectStall Examples.new_vendor
                          (Examples.stall 5 false) Examples.new_vendor))))
  = [CreateReservation 5 "two tables"].
Proof.
  apply (select_then_confirm_requests_that_stall Examples.agreeable
           Examples.new_vendor (Examples.stall 5 false) "two tables");
    [reflexivity | reflexivity | vm_compute; lia].
Defined.

(** ** The cards of the stall grid *)

(** X12. Every card carries exactly one of the three tags, the one that
    goes with its look: 'Reserved' on a greyed card, 'Your Stall' on a
    green one, 'Reserve' on an inviting one.  A click on a card opens the
    modal only if the card showed 'Reserve', and a click on a greyed card
    does nothing at all. *)
Theorem card_tag_matches_look (r : Stalls.State) (stall : Stall.t) :
  StallGrid.card_tags r stall
  = [match StallGrid.card_look r stall with
     | StallGrid.Greyed => StallGrid.ReservedTag
     | StallGrid.Green => StallGrid.YourStallTag
     | StallGrid.Inviting => StallGrid.ReserveLink
     end]
  /\ (Stalls.showModal r = false ->
      Stalls.showModal (final (Stalls.select Stalls.OnCard r stall)) = true ->
      StallGrid.card_tags r stall = [StallGrid.ReserveLink])
  /\ (StallGrid.card_look r stall = StallGrid.Greyed ->
      Stalls.select Stalls.OnCard r stall = (Normal tt, r, [])).
Proof.
  unfold StallGrid.card_tags, StallGrid.card_look, StallGrid.isUserReserved.
  fold (Stalls.holds_confirmed (Stalls.userReservations r) stall).
  cbn [Stalls.select].
  destruct (Stall.is_reserved stall) eqn:Hres;
    destruct (Stalls.holds_confirmed (Stalls.userReservations r) stall) eqn:Hown;
    cbn [andb negb app].
  - split; [reflexivity |]. split; [| intros H; discriminate H].
    intros Hclosed. rewrite (card_click_reserved r stall Hres). cbn.
    rewrite Hclosed. intros H; discriminate H.
  - split; [reflexivity |]. split; [| intros _; apply card_click_reserved; exact Hres].
    intros Hclosed. rewrite (card_click_reserved r stall Hres). cbn.
    rewrite Hclosed. intros H; discriminate H.
  - split; [reflexivity |]. split; [| intros H; discriminate H].
    intros Hclosed.
    rewrite (card_click_unreserved r stall Hres), (select_own_stall r stall Hown).
    cbn. rewrite Hclosed. intros H; discriminate H.
  - split; [reflexivity |]. split; [| intros H; discriminate H].
    intros _ _. reflexivity.
Qed.

Lemma card_tag_matches_look_witness :
  Stalls.select Stalls.OnCard Examples.new_vendor (Examples.stall 4 true)
  = (Normal tt, Examples.new_vendor, []).
Proof.
  apply (proj2 (proj2 (card_tag_matches_look Examples.new_vendor
                         (Examples.stall 4 true)))).
  reflexivity.
Defined.

(** X13. Loading the vendor's reservations fails silently: when the read
    resolves the list is the server's data and the rest of the page is
    untouched; when it is rejected the page state is exactly as before and
    the only effect is a line on the console, no toast. *)
Theorem fetchUserReservations_outcomes
    (server : Response (list Reservation.t)) (r : Stalls.State) :
  let o := StallGrid.fetchUserReservations server r in
  (forall data, server = Resolved data ->
     Stalls.userReservations (final o) = data
     /\ Stalls.stalls (final o) = Stalls.stalls r
     /\ Stalls.filteredStalls (final o) = Stalls.filteredStalls r
     /\ Stalls.selectedSize (final o) = Stalls.selectedSize r
     /\ Stalls.selectedStall (final o) = Stalls.selectedStall r
     /\ Stalls.showModal (final o) = Stalls.showModal r
     /\ effects o = [])
  /\ (forall e, server = Rejected e ->
        final o = r
        /\ effects o = [ConsoleError "Error fetching reservations:"]).
Proof.
  cbv zeta. destruct server as [data | e]; split.
  - intros d H. injection H as <-. repeat split; reflexivity.
  - intros e H. discriminate H.
  - intros d H. discriminate H.
  - intros e' _. split; reflexivity.
Qed.

Lemma fetchUserReservations_outcomes_witness :
  Stalls.userReservations
    (final (StallGrid.fetchUserReservations
              (Resolved [Examples.res 1 1 "confirmed"]) Examples.new_vendor))
  = [Examples.res 1 1 "confirmed"].
Proof.
  apply (proj1 (fetchUserReservations_outcomes
                  (Resolved [Examples.res 1 1 "confirmed"]) Examples.new_vendor)
           [Examples.res 1 1 "confirmed"] eq_refl).
Defined.

(** X14. The cap is only as good as the loaded list: on a page whose
    reservations were never loaded (the list is empty and the read was
    rejected), the list stays empty and selecting any stall that is not
    flagged [is_reserved] opens the modal, the cap being checked against
    the loaded list only. *)
Theorem unloaded_reservations_lift_the_cap
    (e : JsError) (r : Stalls.State) (stall : Stall.t) :
  Stalls.userReservations r = [] ->
  Stall.is_reserved stall = false ->
  let r' := final (StallGrid.fetchUserReservations (Rejected e) r) in
  let o := Stalls.handleSelectStall r' stall r' in
  Stalls.showModal (final o) = true
  /\ Stalls.selectedStall (final o) = Some stall
  /\ effects o = [].
Proof.
  intros Hempty Hres r' o. subst o r'.
  change (final (StallGrid.fetchUserReservations (Rejected e) r)) with r.
  rewrite (select_free_stall r stall Hres).
  - repeat split; reflexivity.
  - rewrite Hempty. reflexivity.
  - rewrite Hempty. cbn. lia.
Qed.

Lemma unloaded_reservations_lift_the_cap_witness :
  Stalls.showModal
    (final (Stalls.handleSelectStall
              (final (StallGrid.fetchUserReservations
                        (Rejected {| response_data_error := None |})
                        Examples.new_vendor))
              (Examples.stall 5 false)
              (final (StallGrid.fetchUserReservations
                        (Rejected {| response_data_error := None |})
                        Examples.new_vendor))))
  = true.
Proof.
  apply (unloaded_reservations_lift_the_cap {| response_data_error := None |}
           Examples.new_vendor (Examples.stall 5 false)); reflexivity.
Defined.

(** X15. The size filter of the stall grid: after the effect ran, the
    filtered list holds exactly the stalls that the filter admits, all of
    them under 'all' and those of the selected size otherwise; the selected
    stall, the modal and the vendor's reservations are untouched. *)
Theorem filterStalls_shows_matching (r : Stalls.State) :
  let r' := final (StallGrid.filterStalls r r) in
  (forall st, In st (Stalls.filteredStalls r')
              <-> In st (Stalls.stalls r)
                  /\ (Stalls.selectedSize r = "all"
                      \/ Stall.size st = Stalls.selectedSize r))
  /\ Stalls.stalls r' = Stalls.stalls r
  /\ Stalls.selectedSize r' = Stalls.selectedSize r
  /\ Stalls.selectedStall r' = Stalls.selectedStall r
  /\ Stalls.showModal r' = Stalls.showModal r
  /\ Stalls.userReservations r' = Stalls.userReservations r.
Proof.
  cbv zeta. unfold StallGrid.filterStalls.
  destruct (String.eqb_spec (Stalls.selectedSize r) "all") as [Hall | Hall]; cbn.
  - split; [intros st; tauto | repeat split; reflexivity].
  - split; [| repeat split; reflexivity].
    intros st. rewrite filter_In, String.eqb_eq. tauto.
Qed.

(** X16. Loading the stalls is all or nothing: a resolved read replaces the
    stall list by the server's data and reports nothing, a rejected one
    leaves the page as it was and shows 'Failed to load stalls';
    [loading] ends false either way, and the vendor's reservations, the
    selected stall and the modal are never touched. *)
Theorem fetchStalls_outcomes
    (server : Response (list Stall.t)) (s : StallGrid.State) :
  let o := StallGrid.fetchStalls server s in
  StallGrid.loading (final o) = false
  /\ Stalls.userReservations (StallGrid.page (final o))
     = Stalls.userReservations (StallGrid.page s)
  /\ Stalls.selectedStall (StallGrid.page (final o))
     = Stalls.selectedStall (StallGrid.page s)
  /\ Stalls.showModal (StallGrid.page (final o)) = Stalls.showModal (StallGrid.page s)
  /\ (forall data, server = Resolved data ->
        Stalls.stalls (StallGrid.page (final o)) = data /\ effects o = [])
  /\ (forall e, server = Rejected e ->
        StallGrid.page (final o) = StallGrid.page s
        /\ effects o = [ToastError "Failed to load stalls"; ConsoleError ""]).
Proof.
  cbv zeta. destruct server as [data | e].
  - split; [reflexivity |]. split; [reflexivity |]. split; [reflexivity |].
    split; [reflexivity |]. split.
    + intros d Hd. injection Hd as <-. split; reflexivity.
    + intros e He. discriminate He.
  - split; [reflexivity |]. split; [reflexivity |]. split; [reflexivity |].
    split; [reflexivity |]. split.
    + intros d Hd. discriminate Hd.
    + intros e' _. split; reflexivity.
Qed.

Lemma fetchStalls_outcomes_witness :
  StallGrid.page
    (final (StallGrid.fetchStalls (Rejected {| response_data_error := None |})
              (StallGrid.mkState Examples.full_vendor true)))
  = Examples.full_vendor.
Proof.
  apply (proj2 (proj2 (proj2 (proj2 (proj2
           (fetchStalls_outcomes (Rejected {| response_data_error := None |})
              (StallGrid.mkState Examples.full_vendor true))))))
           {| response_data_error := None |} eq_refl).
Defined.

(** ** The genres of the vendor dashboard *)

Lemma includes_In (l : list Z) (i : Z) :
  VendorHome.includes l i = true <-> In i l.
Proof.
  unfold VendorHome.includes. rewrite existsb_exists. split.
  - intros [x [Hx Heq]]. apply Z.eqb_eq in Heq. subst x. exact Hx.
  - intros Hi. exists i. split; [exact Hi | apply Z.eqb_refl].
Qed.

Lemma toggled_In (i j : Z) (l : list Z) :
  In j (VendorHome.toggled i l)
  <-> (j = i /\ ~ In i l) \/ (j <> i /\ In j l).
Proof.
  unfold VendorHome.toggled.
  destruct (VendorHome.includes l i) eqn:Hinc.
  - apply includes_In in Hinc. rewrite filter_In.
    destruct (Z.eqb_spec j i) as [-> | Hne]; cbn; split.
    + intros [_ H]. discriminate H.
    + intros [[_ H] | [H _]]; contradiction.
    + intros [H _]. right. split; assumption.
    + intros [[H _] | [_ H]]; [contradiction | split; [exact H | reflexivity]].
  - assert (Hni : ~ In i l).
    { intros H. apply includes_In in H. congruence. }
    rewrite in_app_iff. cbn. split.
    + intros [H | [H | []]].
      * right. split; [intros ->; contradiction | exact H].
      * left. split; [symmetry; exact H | exact Hni].
    + intros [[H _] | [_ H]]; [right; left; symmetry; exact H | left; exact H].
Qed.

Lemma toggled_NoDup (i : Z) (l : list Z) :
  NoDup l -> NoDup (VendorHome.toggled i l).
Proof.
  intros Hnd. unfold VendorHome.toggled.
  destruct (VendorHome.includes l i) eqn:Hinc.
  - apply NoDup_filter. exact Hnd.
  - assert (Hni : ~ In i l).
    { intros H. apply includes_In in H. congruence. }
    apply NoDup_app; [exact Hnd | constructor; [intros [] | constructor] |].
    intros x Hx [H | []]. subst x. contradiction.
Qed.

(** X17. Toggling a genre flips it and nothing else: after
    [handleGenreToggle] the genre is selected exactly when it was not
    before, every other genre is selected exactly when it was, a selection
    without duplicates stays without duplicates, and the saved genres and
    the rest of the page are untouched. *)
Theorem genre_toggle_flips_membership (s : VendorHome.State) (genreId : Z) :
  let s' := final (VendorHome.handleGenreToggle genreId s) in
  (In genreId (VendorHome.selectedGenres s')
   <-> ~ In genreId (VendorHome.selectedGenres s))
  /\ (forall j, j <> genreId ->
        (In j (VendorHome.selectedGenres s') <-> In j (VendorHome.selectedGenres s)))
  /\ (NoDup (VendorHome.selectedGenres s) -> NoDup (VendorHome.selectedGenres s'))
  /\ VendorHome.userGenres s' = VendorHome.userGenres s
  /\ VendorHome.genres s' = VendorHome.genres s
  /\ VendorHome.page s' = VendorHome.page s
  /\ effects (VendorHome.handleGenreToggle genreId s) = [].
Proof.
  cbv zeta. unfold VendorHome.handleGenreToggle, set, final. cbn.
  split; [| split; [| split; [| repeat split; reflexivity]]].
  - rewrite toggled_In. tauto.
  - intros j Hj. rewrite toggled_In. tauto.
  - apply toggled_NoDup.
Qed.

Lemma genre_toggle_flips_membership_witness :
  NoDup (VendorHome.selectedGenres
           (final (VendorHome.handleGenreToggle 2
                     (VendorHome.mkState Examples.vendor_page [] [] [1; 2; 3]%Z
                        false)))).
Proof.
  apply (proj1 (proj2 (proj2 (genre_toggle_flips_membership
                                (VendorHome.mkState Examples.vendor_page [] []
                                   [1; 2; 3]%Z false) 2)))).
  repeat constructor; cbn; intuition discriminate.
Defined.

(** X18. Toggling the same genre twice selects the same genres as before;
    when the genre was not selected, the list itself is back to what it
    was. *)
Theorem genre_toggle_twice (genreId : Z) (l : list Z) :
  (forall j, In j (VendorHome.toggled genreId (VendorHome.toggled genreId l))
             <-> In j l)
  /\ (~ In genreId l ->
      VendorHome.toggled genreId (VendorHome.toggled genreId l) = l).
Proof.
  split.
  - intros j. rewrite !toggled_In.
    destruct (Z.eq_dec j genreId) as [-> | Hne].
    + split.
      * intros [[_ H] | [H _]]; [| contradiction].
        destruct (in_dec Z.eq_dec genreId l) as [Hin | Hni]; [exact Hin |].
        exfalso. apply H. left. split; [reflexivity | exact Hni].
      * intros Hin. left. split; [reflexivity |].
        intros [[_ H] | [H _]]; contradiction.
    + split.
      * intros [[H _] | [_ [[H _] | [_ H]]]]; try contradiction. exact H.
      * intros Hin. right. split; [exact Hne |]. right. split; assumption.
  - intros Hni. unfold VendorHome.toggled at 2.
    destruct (VendorHome.includes l genreId) eqn:Hinc.
    + apply includes_In in Hinc. contradiction.
    + unfold VendorHome.toggled.
      assert (Hin : VendorHome.includes (l ++ [genreId]) genreId = true).
      { apply includes_In. apply in_app_iff. right. left. reflexivity. }
      rewrite Hin, filter_app. cbn. rewrite Z.eqb_refl. cbn. rewrite app_nil_r.
      apply forallb_filter_id. apply forallb_forall.
      intros x Hx. destruct (Z.eqb_spec x genreId) as [-> | _];
        [contradiction | reflexivity].
Qed.

Lemma genre_toggle_twice_witness :
  VendorHome.toggled 4 (VendorHome.toggled 4 [1; 2; 3]%Z) = [1; 2; 3]%Z.
Proof.
  apply (proj2 (genre_toggle_twice 4 [1; 2; 3]%Z)).
  cbn. intuition discriminate.
Defined.

(** X19. Loading the dashboard is all or nothing.  When the three reads
    resolve, the reservations, the genres and the vendor's genres are the
    server's data and the selection is the list of the ids of the vendor's
    genres; when any of them is rejected, none of the four cells changes
    and 'Failed to load data' is shown.  [loading] ends false either way,
    and the expanded reservation and [saving] are never touched. *)
Theorem fetchData_all_or_nothing (server : VendorHome.Reads) (s : VendorHome.State) :
  let o := VendorHome.fetchData server s in
  Dashboard.loading (VendorHome.page (final o)) = false
  /\ Dashboard.expandedReservation (VendorHome.page (final o))
     = Dashboard.expandedReservation (VendorHome.page s)
  /\ VendorHome.saving (final o) = VendorHome.saving s
  /\ (forall rs gs us,
        VendorHome.getUserReservations server = Resolved rs ->
        VendorHome.getAllGenres server = Resolved gs ->
        VendorHome.getUserGenres server = Resolved us ->
        Dashboard.reservations (VendorHome.page (final o)) = rs
        /\ VendorHome.genres (final o) = gs
        /\ VendorHome.userGenres (final o) = us
        /\ VendorHome.selectedGenres (final o) = map Genre.id us
        /\ effects o = [])
  /\ ((exists e, VendorHome.getUserReservations server = Rejected e
                 \/ VendorHome.getAllGenres server = Rejected e
                 \/ VendorHome.getUserGenres server = Rejected e) ->
      Dashboard.reservations (VendorHome.page (final o))
      = Dashboard.reservations (VendorHome.page s)
      /\ VendorHome.genres (final o) = VendorHome.genres s
      /\ VendorHome.userGenres (final o) = VendorHome.userGenres s
      /\ VendorHome.selectedGenres (final o) = VendorHome.selectedGenres s
      /\ effects o = [ToastError "Failed to load data"; ConsoleError ""]).
Proof.
  cbv zeta. unfold VendorHome.fetchData.
  destruct server as [[rs | e1] [gs | e2] [us | e3]]; cbn;
    (split; [reflexivity |]); (split; [reflexivity |]); (split; [reflexivity |]);
    split;
    try (intros rs' gs' us' H1 H2 H3; try discriminate H1; try discriminate H2;
         try discriminate H3);
    try (intros _; repeat split; reflexivity).
  - injection H1 as <-. injection H2 as <-. injection H3 as <-.
    repeat split; reflexivity.
  - intros [e [H | [H | H]]]; discriminate H.
Qed.

Lemma fetchData_all_or_nothing_witness :
  VendorHome.genres
    (final (VendorHome.fetchData
              {| VendorHome.getUserReservations := Resolved [];
                 VendorHome.getAllGenres := Resolved [Genre.mk 1 "Fiction" "F"];
                 VendorHome.getUserGenres :=
                   Rejected {| response_data_error := None |} |}
              (VendorHome.mkState Examples.vendor_page [] [] [] false)))
  = [].
Proof.
  apply (proj2 (proj2 (proj2 (proj2
           (fetchData_all_or_nothing
              {| VendorHome.getUserReservations := Resolved [];
                 VendorHome.getAllGenres := Resolved [Genre.mk 1 "Fiction" "F"];
                 VendorHome.getUserGenres :=
                   Rejected {| response_data_error := None |} |}
              (VendorHome.mkState Examples.vendor_page [] [] [] false)))))).
  exists {| response_data_error := None |}. right. right. reflexivity.
Defined.

(** X20. Saving the genres: the request carries the current selection;
    when it resolves, the vendor's genres become exactly the known genres
    whose id is selected, in the order of the genre list; when it is
    rejected they are unchanged and 'Failed to update genres' is shown,
    whatever message the server sent.  [saving] ends false either way and
    the selection itself is never changed. *)
Theorem save_genres_outcomes
    (server : list Z -> Response unit) (r : VendorHome.State) :
  let o := VendorHome.handleSaveGenres server r r in
  VendorHome.saving (final o) = false
  /\ VendorHome.selectedGenres (final o) = VendorHome.selectedGenres r
  /\ VendorHome.genres (final o) = VendorHome.genres r
  /\ (server (VendorHome.selectedGenres r) = Resolved tt ->
      (forall g, In g (VendorHome.userGenres (final o))
                 <-> In g (VendorHome.genres r)
                     /\ In (Genre.id g) (VendorHome.selectedGenres r))
      /\ VendorHome.userGenres (final o)
         = filter (fun g => VendorHome.includes (VendorHome.selectedGenres r)
                              (Genre.id g))
                  (VendorHome.genres r)
      /\ effects o = [ToastSuccess "Genres updated successfully!"])
  /\ (forall e, server (VendorHome.selectedGenres r) = Rejected e ->
        VendorHome.userGenres (final o) = VendorHome.userGenres r
        /\ effects o = [ToastError "Failed to update genres"]).
Proof.
  cbv zeta. unfold VendorHome.handleSaveGenres.
  run_handler. unfold await_response, VendorHome.setSaving, VendorHome.setUserGenres, set.
  destruct (server (VendorHome.selectedGenres r)) as [[] | e] eqn:Hs; cbn.
  - split; [reflexivity |]. split; [reflexivity |]. split; [reflexivity |]. split.
    + intros _. split; [| split; reflexivity].
      intros g. rewrite filter_In, includes_In. tauto.
    + intros e H. discriminate H.
  - split; [reflexivity |]. split; [reflexivity |]. split; [reflexivity |]. split.
    + intros H. discriminate H.
    + intros e' _. split; reflexivity.
Qed.

Lemma save_genres_outcomes_witness :
  VendorHome.userGenres
    (final (VendorHome.handleSaveGenres (fun _ => Resolved tt)
              (VendorHome.mkState Examples.vendor_page
                 [Genre.mk 1 "Fiction" "F"; Genre.mk 2 "Poetry" "P"] [] [2%Z] false)
              (VendorHome.mkState Examples.vendor_page
                 [Genre.mk 1 "Fiction" "F"; Genre.mk 2 "Poetry" "P"] [] [2%Z] false)))
  = [Genre.mk 2 "Poetry" "P"]
  /\ effects (VendorHome.handleSaveGenres (fun _ => Resolved tt)
                (VendorHome.mkState Examples.vendor_page
                   [Genre.mk 1 "Fiction" "F"; Genre.mk 2 "Poetry" "P"] [] [2%Z] false)
                (VendorHome.mkState Examples.vendor_page
                   [Genre.mk 1 "Fiction" "F"; Genre.mk 2 "Poetry" "P"] [] [2%Z] false))
     = [ToastSuccess "Genres updated successfully!"].
Proof.
  split; [reflexivity |].
  apply (proj1 (proj2 (proj2 (proj2
           (save_genres_outcomes (fun _ => Resolved tt)
              (VendorHome.mkState Examples.vendor_page
                 [Genre.mk 1 "Fiction" "F"; Genre.mk 2 "Poetry" "P"] [] [2%Z]
                 false)))))).
  reflexivity.
Defined.

(** ** The vendor's view of a reservation *)

(** X21. The status pill and the expanded view of a reservation agree,
    although they test the status in a different order: 'Active' goes with
    the QR section, 'Pending' with the awaiting-approval notice, and
    'Cancelled' with the cancelled notice alone.  The last case is that of
    every status other than 'confirmed' and 'pending', 'rejected'
    included. *)
Theorem pill_matches_view (res : Reservation.t) :
  (VendorHome.status_pill res = VendorHome.ActivePill
   <-> In (Dashboard.QRCodeSection (Reservation.qr_data res))
          (Dashboard.status_view res))
  /\ (VendorHome.status_pill res = VendorHome.PendingPill
      <-> In Dashboard.AwaitingApproval (Dashboard.status_view res))
  /\ (VendorHome.status_pill res = VendorHome.CancelledPill
      <-> Dashboard.status_view res = [Dashboard.CancelledNotice])
  /\ (VendorHome.status_pill res = VendorHome.CancelledPill
      <-> Reservation.status res <> "confirmed"
          /\ Reservation.status res <> "pending").
Proof.
  unfold VendorHome.status_pill, Dashboard.status_view.
  destruct (String.eqb_spec (Reservation.status res) "confirmed") as [Hc | Hc];
    destruct (String.eqb_spec (Reservation.status res) "pending") as [Hp | Hp];
    cbn; try (rewrite Hc in Hp; discriminate Hp);
    repeat split; intros; try discriminate; try tauto;
    repeat match goal with
           | H : _ \/ _ |- _ => destruct H
           | H : _ /\ _ |- _ => destruct H
           end;
    try discriminate; try contradiction; auto.
Qed.

(** X22. The vendor's cancel and its refresh: the handler issues at most
    the cancel request of that reservation, and none when the dialog is
    declined.  The refresh through [fetchData] is started exactly when the
    dialog was accepted and the request resolved; in that case the handler
    returns with [loading] set by the started [fetchData] and the
    reservations and the expanded reservation as they were, and in every
    other case the component state is exactly as before. *)
Theorem vendor_cancel_refreshes_iff_resolved
    (w : World) (s : Dashboard.State) (res : Reservation.t) :
  let o := Dashboard.handleCancelReservation w s res s in
  Dashboard.reservations (final o) = Dashboard.reservations s
  /\ Dashboard.expandedReservation (final o) = Dashboard.expandedReservation s
  /\ (requests (effects o) = []
      \/ requests (effects o) = [CancelReservation (Reservation.id res)])
  /\ (In (Spawn "fetchData") (effects o)
      <-> window_confirm w (Dashboard.cancel_question res) = true
          /\ api w (CancelReservation (Reservation.id res)) = None)
  /\ (In (Spawn "fetchData") (effects o) -> Dashboard.loading (final o) = true)
  /\ (~ In (Spawn "fetchData") (effects o) -> final o = s)
  /\ (window_confirm w (Dashboard.cancel_question res) = false ->
      requests (effects o) = []).
Proof.
  cbv zeta.
  destruct (window_confirm w (Dashboard.cancel_question res)) eqn:Hc.
  - destruct (api w (CancelReservation (Reservation.id res))) as [e |] eqn:Ha.
    + rewrite (vendor_cancel_refused w s res e Hc Ha). cbn.
      split; [reflexivity |]. split; [reflexivity |].
      split; [right; reflexivity |]. split; [| split; [| split]].
      * split.
        -- intros [H | [H | [H | []]]]; discriminate H.
        -- intros [_ H]. discriminate H.
      * intros [H | [H | [H | []]]]; discriminate H.
      * intros _. reflexivity.
      * intros H. discriminate H.
    + rewrite (vendor_cancel_resolved w s res Hc Ha). cbn.
      split; [reflexivity |]. split; [reflexivity |].
      split; [right; reflexivity |]. split; [| split; [| split]].
      * split; [intros _; split; reflexivity | intros _; auto].
      * intros _. reflexivity.
      * intros H. exfalso. apply H. auto.
      * intros H. discriminate H.
  - rewrite (vendor_cancel_declined w s res Hc). cbn.
    split; [reflexivity |]. split; [reflexivity |].
    split; [left; reflexivity |]. split; [| split; [| split]].
    + split.
      * intros [H | []]. discriminate H.
      * intros [H _]. discriminate H.
    + intros [H | []]. discriminate H.
    + intros _. reflexivity.
    + reflexivity.
Qed.

Lemma vendor_cancel_refreshes_iff_resolved_witness :
  In (Spawn "fetchData")
     (effects (Dashboard.handleCancelReservation Examples.agreeable
                 Examples.vendor_page (Examples.res 2 11 "pending")
                 Examples.vendor_page)).
Proof.
  apply (proj2 (proj1 (proj2 (proj2 (proj2 (vendor_cancel_refreshes_iff_resolved
                                              Examples.agreeable
                                              Examples.vendor_page
                                              (Examples.res 2 11 "pending"))))))).
  split; reflexivity.
Defined.

(** ** The session: provider, route guard and login page *)

Lemma setItem_same (k v : string) (st : Browser.Storage) :
  Browser.setItem k v st k = Some v.
Proof. unfold Browser.setItem. rewrite String.eqb_refl. reflexivity. Qed.

Lemma setItem_other (k v k' : string) (st : Browser.Storage) :
  k' <> k -> Browser.setItem k v st k' = st k'.
Proof.
  intros H. unfold Browser.setItem.
  destruct (String.eqb_spec k' k); [contradiction | reflexivity].
Qed.

Lemma removeItem_same (k : string) (st : Browser.Storage) :
  Browser.removeItem k st k = None.
Proof. unfold Browser.removeItem. rewrite String.eqb_refl. reflexivity. Qed.

Lemma removeItem_other (k k' : string) (st : Browser.Storage) :
  k' <> k -> Browser.removeItem k st k' = st k'.
Proof.
  intros H. unfold Browser.removeItem.
  destruct (String.eqb_spec k' k); [contradiction | reflexivity].
Qed.

Ltac run_session :=
  cbv [Auth.login Auth.logout Auth.restore Auth.handleSubmit
       Auth.setToken Auth.setEmployee Auth.setLoading Auth.setSubmitting
       Auth.in_window Auth.in_app Auth.isAuthenticated Auth.ProtectedRoute
       Http.on_request Http.on_response_error
       Browser.store Browser.goto Browser.getItem
       try_catch try_catch_finally bind ret emit set throw gets zoom
       await_response final effects].

(** What the response interceptor leaves behind. *)
Lemma on_response_error_eq (profile : string) (f : Http.Failure)
    (w : Browser.Window) :
  Http.on_response_error profile f w
  = (Throw (Http.error f),
     match Http.status f with
     | Some 401%Z =>
         Browser.mkWindow
           (Browser.removeItem profile
              (Browser.removeItem "access_token" (Browser.localStorage w)))
           "/login"
     | _ => w
     end,
     []).
Proof.
  run_session.
  destruct (Http.status f) as [z |]; [| reflexivity].
  destruct z as [| p | p]; try reflexivity.
  repeat (destruct p as [p | p |]; try reflexivity).
Qed.

Section Session.
Context {Employee : Type}.
Variable codec : Auth.Codec Employee.
Variable server : string -> string -> Http.Reply (Auth.LoginData (Employee := Employee)).

Lemma login_resolved (email password : string) (a : Auth.App)
    (d : Auth.LoginData) :
  server email password = Http.Accepted d ->
  Auth.login codec server email password a
  = (Normal d,
     Auth.mkApp
       (Auth.mkProvider (Some (Auth.data_employee d)) (Some (Auth.access_token d))
          (Auth.loading (Auth.provider a)))
       (Browser.mkWindow
          (Browser.setItem "employee" (Auth.stringify codec (Auth.data_employee d))
             (Browser.setItem "access_token" (Auth.access_token d)
                (Browser.localStorage (Auth.window a))))
          (Browser.location (Auth.window a))),
     []).
Proof.
  intros H. unfold Auth.login. rewrite H.
  unfold Http.through_client. run_session. reflexivity.
Qed.

Lemma login_refused (email password : string) (a : Auth.App) (f : Http.Failure) :
  server email password = Http.Refused f ->
  Auth.login codec server email password a
  = (Throw (Http.error f),
     Auth.mkApp (Auth.provider a)
       (match Http.status f with
        | Some 401%Z =>
            Browser.mkWindow
              (Browser.removeItem "employee"
                 (Browser.removeItem "access_token"
                    (Browser.localStorage (Auth.window a))))
              "/login"
        | _ => Auth.window a
        end),
     []).
Proof.
  intros H. unfold Auth.login. rewrite H.
  unfold Http.through_client, try_catch, bind, Auth.in_window, zoom, throw.
  rewrite on_response_error_eq. reflexivity.
Qed.

End Session.

(** X23. What a login leaves behind.  When the server accepts, [login]
    returns the response data, the provider holds the token and the
    employee, and [localStorage] holds the token under 'access_token' and
    the employee's JSON text under 'employee', every other key being as
    before; the provider counts as authenticated exactly when the token is
    not the empty string.  When the server refuses, the same error is
    rethrown and the provider is unchanged; the browser is unchanged too
    unless the status is 401, in which case the client's response
    interceptor has removed 'access_token' and 'employee' from
    [localStorage], left the other keys alone and set the location to
    '/login'. *)
Theorem login_outcomes {Employee : Type} (codec : Auth.Codec Employee)
    (server : string -> string -> Http.Reply Auth.LoginData)
    (email password : string) (a : Auth.App (Employee := Employee)) :
  let o := Auth.login codec server email password a in
  (forall d, server email password = Http.Accepted d ->
     fst (fst o) = Normal d
     /\ Auth.token (Auth.provider (final o)) = Some (Auth.access_token d)
     /\ Auth.employee (Auth.provider (final o)) = Some (Auth.data_employee d)
     /\ Auth.loading (Auth.provider (final o)) = Auth.loading (Auth.provider a)
     /\ Browser.localStorage (Auth.window (final o)) "access_token"
        = Some (Auth.access_token d)
     /\ Browser.localStorage (Auth.window (final o)) "employee"
        = Some (Auth.stringify codec (Auth.data_employee d))
     /\ (forall k, k <> "access_token" -> k <> "employee" ->
           Browser.localStorage (Auth.window (final o)) k
           = Browser.localStorage (Auth.window a) k)
     /\ Browser.location (Auth.window (final o)) = Browser.location (Auth.window a)
     /\ (Auth.isAuthenticated (Auth.provider (final o)) = true
         <-> Auth.access_token d <> ""))
  /\ (forall f, server email password = Http.Refused f ->
        fst (fst o) = Throw (Http.error f)
        /\ effects o = []
        /\ Auth.provider (final o) = Auth.provider a
        /\ (Http.status f <> Some 401%Z -> final o = a)
        /\ (Http.status f = Some 401%Z ->
            Browser.localStorage (Auth.window (final o)) "access_token" = None
            /\ Browser.localStorage (Auth.window (final o)) "employee" = None
            /\ (forall k, k <> "access_token" -> k <> "employee" ->
                  Browser.localStorage (Auth.window (final o)) k
                  = Browser.localStorage (Auth.window a) k)
            /\ Browser.location (Auth.window (final o)) = "/login")).
Proof.
  cbv zeta. split.
  - intros d H. rewrite (login_resolved codec server email password a d H).
    cbn [final fst snd Auth.provider Auth.window Auth.token Auth.employee
         Auth.loading Browser.localStorage Browser.location].
    split; [reflexivity |]. split; [reflexivity |]. split; [reflexivity |].
    split; [reflexivity |].
    split; [rewrite setItem_other by discriminate; apply setItem_same |].
    split; [apply setItem_same |].
    split; [intros k H1 H2; rewrite !setItem_other by assumption; reflexivity |].
    split; [reflexivity |].
    unfold Auth.isAuthenticated, truthy. cbn.
    destruct (String.eqb_spec (Auth.access_token d) ""); cbn; split;
      intros; try discriminate; try contradiction; auto.
  - intros f H. rewrite (login_refused codec server email password a f H).
    cbn [final fst snd effects Auth.provider Auth.window].
    split; [reflexivity |]. split; [reflexivity |]. split; [reflexivity |]. split.
    + intros Hne. destruct a as [p win]. cbn [Auth.provider Auth.window].
      f_equal.
      destruct (Http.status f) as [z |]; [| reflexivity].
      destruct (Z.eq_dec z 401) as [-> | Hz]; [exfalso; apply Hne; reflexivity |].
      destruct z as [| q | q]; try reflexivity.
      repeat (destruct q as [q | q |]; try reflexivity).
      exfalso. apply Hz. reflexivity.
    + intros H401. rewrite H401.
      cbn [Browser.localStorage Browser.location].
      split; [rewrite removeItem_other by discriminate; apply removeItem_same |].
      split; [apply removeItem_same |].
      split; [| reflexivity].
      intros k H1 H2. rewrite !removeItem_other by assumption. reflexivity.
Qed.

Lemma login_outcomes_witness :
  Browser.localStorage
    (Auth.window (final (Auth.login Samples.text_codec Samples.login_server
                           "admin@bookfair.lk" "admin123" Samples.fresh_app)))
    "employee"
  = Some "j:admin"
  /\ Browser.location
       (Auth.window
          (final (Auth.login Samples.text_codec Samples.login_server
                    "admin@bookfair.lk" "guess"
                    (Auth.app (Samples.signed_in_form "guess")))))
     = "/login"
  /\ Browser.localStorage
       (Auth.window
          (final (Auth.login Samples.text_codec Samples.login_server
                    "admin@bookfair.lk" "guess"
                    (Auth.app (Samples.signed_in_form "guess")))))
       "access_token"
     = None.
Proof.
  destruct (login_outcomes Samples.text_codec Samples.login_server
              "admin@bookfair.lk" "admin123" Samples.fresh_app) as [Hok _].
  destruct (login_outcomes Samples.text_codec Samples.login_server
              "admin@bookfair.lk" "guess"
              (Auth.app (Samples.signed_in_form "guess"))) as [_ Hno].
  destruct (Hno _ eq_refl) as [_ [_ [_ [_ H401]]]].
  destruct (H401 eq_refl) as [Htok [_ [_ Hloc]]].
  split; [| split; [exact Hloc | exact Htok]].
  exact (proj1 (proj2 (proj2 (proj2 (proj2 (proj2 (Hok Samples.admin eq_refl))))))).
Defined.

(** X24. Logging out ends the session for good: after [logout] the
    provider holds neither token nor employee and is not authenticated,
    [localStorage] holds neither 'access_token' nor 'employee' while every
    other key and the location are as before, and a later mount of the
    provider on that browser restores nothing: the guard then sends the
    visitor to '/login'. *)
Theorem logout_clears {Employee : Type} (codec : Auth.Codec Employee)
    (a : Auth.App (Employee := Employee)) :
  let a' := final (Auth.logout a) in
  Auth.token (Auth.provider a') = None
  /\ Auth.employee (Auth.provider a') = None
  /\ Auth.isAuthenticated (Auth.provider a') = false
  /\ Browser.localStorage (Auth.window a') "access_token" = None
  /\ Browser.localStorage (Auth.window a') "employee" = None
  /\ (forall k, k <> "access_token" -> k <> "employee" ->
        Browser.localStorage (Auth.window a') k
        = Browser.localStorage (Auth.window a) k)
  /\ Browser.location (Auth.window a') = Browser.location (Auth.window a)
  /\ effects (Auth.logout a) = []
  /\ (forall fresh : Auth.Provider (Employee := Employee),
        Auth.token fresh = None ->
        let again := final (Auth.restore codec (Auth.mkApp fresh (Auth.window a'))) in
        Auth.token (Auth.provider again) = None
        /\ Auth.ProtectedRoute (Auth.provider again) = Auth.NavigateTo "/login").
Proof.
  cbv zeta. run_session.
  cbn [fst snd Auth.provider Auth.window Auth.token Auth.employee Auth.loading
       Browser.localStorage Browser.location app].
  split; [reflexivity |]. split; [reflexivity |]. split; [reflexivity |].
  split; [rewrite removeItem_other by discriminate; apply removeItem_same |].
  split; [apply removeItem_same |].
  split; [intros k H1 H2; rewrite !removeItem_other by assumption; reflexivity |].
  split; [reflexivity |]. split; [reflexivity |].
  intros fresh Hfresh.
  rewrite removeItem_other by discriminate. rewrite removeItem_same.
  cbn. rewrite Hfresh. split; reflexivity.
Qed.

Lemma logout_clears_witness :
  Auth.ProtectedRoute
    (Auth.provider
       (final (Auth.restore Samples.text_codec
                 (Auth.mkApp (Auth.mkProvider None None true)
                    (Auth.window
                       (final (Auth.logout
                                 (Auth.mkApp (Auth.mkProvider (Some "admin")
                                                (Some "t0k3n") false)
                                    Samples.signed_in_window))))))))
  = Auth.NavigateTo "/login".
Proof.
  apply (proj2 (proj2 (proj2 (proj2 (proj2 (proj2 (proj2 (proj2
           (logout_clears Samples.text_codec
              (Auth.mkApp (Auth.mkProvider (Some "admin") (Some "t0k3n") false)
                 Samples.signed_in_window)))))))))
           (Auth.mkProvider None None true)).
  reflexivity.
Defined.

(** X25. A session survives a reload: after a login whose token is not
    empty, mounting a new provider on the same browser restores the token
    and, given that [JSON.parse] reads back what [JSON.stringify] wrote (a
    non-empty text), the employee; [loading] is cleared and the guard
    renders the protected page. *)
Theorem reload_restores_session {Employee : Type} (codec : Auth.Codec Employee)
    (server : string -> string -> Http.Reply Auth.LoginData)
    (email password : string) (a : Auth.App (Employee := Employee)) (d : Auth.LoginData)
    (mounted : Auth.Provider (Employee := Employee)) :
  server email password = Http.Accepted d ->
  Auth.access_token d <> "" ->
  Auth.stringify codec (Auth.data_employee d) <> "" ->
  Auth.parse codec (Auth.stringify codec (Auth.data_employee d))
  = Some (Auth.data_employee d) ->
  let browser := Auth.window (final (Auth.login codec server email password a)) in
  let o := Auth.restore codec (Auth.mkApp mounted browser) in
  fst (fst o) = Normal tt
  /\ Auth.token (Auth.provider (final o)) = Some (Auth.access_token d)
  /\ Auth.employee (Auth.provider (final o)) = Some (Auth.data_employee d)
  /\ Auth.loading (Auth.provider (final o)) = false
  /\ Auth.window (final o) = browser
  /\ Auth.ProtectedRoute (Auth.provider (final o)) = Auth.Children.
Proof.
  intros Hs Htok Htext Hparse browser o. subst o browser.
  rewrite (login_resolved codec server email password a d Hs).
  cbn [final fst snd Auth.window].
  run_session.
  cbn [Auth.window Browser.localStorage].
  rewrite (setItem_other "employee" _ "access_token") by discriminate.
  rewrite !setItem_same. unfold truthy.
  destruct (String.eqb_spec (Auth.access_token d) ""); [contradiction |].
  destruct (String.eqb_spec (Auth.stringify codec (Auth.data_employee d)) "");
    [contradiction |].
  cbn. rewrite Hparse. cbn.
  destruct (String.eqb_spec (Auth.access_token d) ""); [contradiction |].
  repeat split; reflexivity.
Qed.

Lemma reload_restores_session_witness :
  Auth.ProtectedRoute
    (Auth.provider
       (final (Auth.restore Samples.text_codec
                 (Auth.mkApp (Auth.mkProvider None None true)
                    (Auth.window
                       (final (Auth.login Samples.text_codec Samples.login_server
                                 "admin@bookfair.lk" "admin123"
                                 Samples.fresh_app)))))))
  = Auth.Children.
Proof.
  apply (reload_restores_session Samples.text_codec Samples.login_server
           "admin@bookfair.lk" "admin123" Samples.fresh_app Samples.admin
           (Auth.mkProvider None None true));
    [reflexivity | discriminate | discriminate | reflexivity].
Defined.

(** X26. A stored profile that is not valid JSON stops the mount effect
    half-way: with a non-empty token and a non-empty 'employee' text that
    [JSON.parse] rejects, the effect throws after the token was set and
    before [loading] is cleared, so the employee and [loading] are as they
    were; for a freshly mounted provider, whose [loading] is true, the
    guard computes the spinner. *)
Theorem corrupt_profile_blocks_restore {Employee : Type}
    (codec : Auth.Codec Employee) (a : Auth.App (Employee := Employee))
    (t text : string) :
  Browser.localStorage (Auth.window a) "access_token" = Some t ->
  t <> "" ->
  Browser.localStorage (Auth.window a) "employee" = Some text ->
  text <> "" ->
  Auth.parse codec text = None ->
  let o := Auth.restore codec a in
  (exists e, fst (fst o) = Throw e)
  /\ Auth.token (Auth.provider (final o)) = Some t
  /\ Auth.employee (Auth.provider (final o)) = Auth.employee (Auth.provider a)
  /\ Auth.loading (Auth.provider (final o)) = Auth.loading (Auth.provider a)
  /\ Auth.window (final o) = Auth.window a
  /\ (Auth.loading (Auth.provider a) = true ->
      Auth.ProtectedRoute (Auth.provider (final o)) = Auth.Spinner).
Proof.
  intros Ht Htne He Hene Hparse o. subst o.
  run_session. rewrite Ht, He. unfold truthy.
  destruct (String.eqb_spec t ""); [contradiction |].
  destruct (String.eqb_spec text ""); [contradiction |].
  cbn. rewrite Hparse. cbn.
  split; [eexists; reflexivity |].
  split; [reflexivity |]. split; [reflexivity |]. split; [reflexivity |].
  split; [reflexivity |].
  intros Hl. rewrite Hl. reflexivity.
Qed.

Lemma corrupt_profile_blocks_restore_witness :
  Auth.ProtectedRoute
    (Auth.provider
       (final (Auth.restore Samples.text_codec
                 (Auth.mkApp (Auth.mkProvider None None true)
                    (Browser.mkWindow
                       (Browser.setItem "employee" "{oops"
                          (Browser.setItem "access_token" "t0k3n"
                             Samples.empty_storage))
                       "/dashboard")))))
  = Auth.Spinner.
Proof.
  apply (corrupt_profile_blocks_restore Samples.text_codec
           (Auth.mkApp (Auth.mkProvider None None true)
              (Browser.mkWindow
                 (Browser.setItem "employee" "{oops"
                    (Browser.setItem "access_token" "t0k3n" Samples.empty_storage))
                 "/dashboard"))
           "t0k3n" "{oops");
    try reflexivity; discriminate.
Defined.

(** X27. Submitting the login form.  When the server accepts, the token is
    in the provider and in [localStorage], the welcome toast is shown and
    the location is '/dashboard'.  When it refuses, the provider is as
    before, nothing is reported as a success, and the error toast carries
    the server's message or 'Login failed'; the browser is as before too
    unless the status is 401, in which case the client's response
    interceptor has removed 'access_token' and 'employee' from
    [localStorage] and set the location to '/login'.  The form's
    [loading] ends false either way. *)
Theorem login_submit_outcomes {Employee : Type} (codec : Auth.Codec Employee)
    (server : string -> string -> Http.Reply Auth.LoginData)
    (r : Auth.LoginPage (Employee := Employee)) :
  let o := Auth.handleSubmit codec server r r in
  Auth.submitting (final o) = false
  /\ Auth.email (final o) = Auth.email r
  /\ Auth.password (final o) = Auth.password r
  /\ (forall d, server (Auth.email r) (Auth.password r) = Http.Accepted d ->
        Browser.location (Auth.window (Auth.app (final o))) = "/dashboard"
        /\ Auth.token (Auth.provider (Auth.app (final o)))
           = Some (Auth.access_token d)
        /\ Browser.localStorage (Auth.window (Auth.app (final o))) "access_token"
           = Some (Auth.access_token d)
        /\ effects o = [ToastSuccess "Welcome to Employee Portal!"])
  /\ (forall f, server (Auth.email r) (Auth.password r) = Http.Refused f ->
        Auth.provider (Auth.app (final o)) = Auth.provider (Auth.app r)
        /\ effects o
           = [ToastError (JS.opt_or_else (response_data_error (Http.error f))
                            "Login failed")]
        /\ (Http.status f <> Some 401%Z -> Auth.app (final o) = Auth.app r)
        /\ (Http.status f = Some 401%Z ->
            Browser.localStorage (Auth.window (Auth.app (final o))) "access_token"
            = None
            /\ Browser.localStorage (Auth.window (Auth.app (final o))) "employee"
               = None
            /\ Browser.location (Auth.window (Auth.app (final o))) = "/login")).
Proof.
  cbv zeta.
  unfold Auth.handleSubmit, Auth.setSubmitting, Auth.in_app, Auth.in_window,
    try_catch_finally, bind, zoom, set, emit, Browser.goto, final, effects.
  cbn [Auth.app Auth.email Auth.password Auth.submitting fst snd].
  destruct (server (Auth.email r) (Auth.password r)) as [d | f] eqn:Hs.
  - rewrite (login_resolved codec server _ _ _ d Hs). cbn.
    split; [reflexivity |]. split; [reflexivity |]. split; [reflexivity |]. split.
    + intros d' H. injection H as <-.
      split; [reflexivity |]. split; [reflexivity |].
      split; reflexivity.
    + intros f H. discriminate H.
  - rewrite (login_refused codec server _ _ _ f Hs). cbn.
    split; [reflexivity |]. split; [reflexivity |]. split; [reflexivity |]. split.
    + intros d H. discriminate H.
    + intros f' H. injection H as <-.
      split; [reflexivity |]. split; [reflexivity |]. split.
      * intros Hne. destruct (Auth.app r) as [p win]. cbn. f_equal.
        destruct (Http.status f) as [z |]; [| reflexivity].
        destruct (Z.eq_dec z 401) as [-> | Hz]; [exfalso; apply Hne; reflexivity |].
        destruct z as [| q | q]; try reflexivity.
        repeat (destruct q as [q | q |]; try reflexivity).
        exfalso. apply Hz. reflexivity.
      * intros H401. rewrite H401. cbn.
        split; [reflexivity |]. split; reflexivity.
Qed.

Lemma login_submit_outcomes_witness :
  Browser.location
    (Auth.window (Auth.app (final (Auth.handleSubmit Samples.text_codec
                                     Samples.login_server
                                     (Samples.login_form "admin123")
                                     (Samples.login_form "admin123")))))
  = "/dashboard"
  /\ effects (Auth.handleSubmit Samples.text_codec Samples.login_server
                (Samples.signed_in_form "guess") (Samples.signed_in_form "guess"))
     = [ToastError "Invalid credentials"]
  /\ Browser.localStorage
       (Auth.window (Auth.app (final (Auth.handleSubmit Samples.text_codec
                                        Samples.login_server
                                        (Samples.signed_in_form "guess")
                                        (Samples.signed_in_form "guess")))))
       "access_token"
     = None.
Proof.
  destruct (login_submit_outcomes Samples.text_codec Samples.login_server
              (Samples.login_form "admin123")) as [_ [_ [_ [Hok _]]]].
  destruct (login_submit_outcomes Samples.text_codec Samples.login_server
              (Samples.signed_in_form "guess")) as [_ [_ [_ [_ Hno]]]].
  destruct (Hno _ eq_refl) as [_ [Htoast [_ H401]]].
  split; [exact (proj1 (Hok Samples.admin eq_refl)) |].
  split; [exact Htoast |].
  exact (proj1 (H401 eq_refl)).
Defined.

(** ** The interceptors of the API clients *)

(** X28. The bearer token of a request: the request interceptor returns
    the configuration with the same method and url and with the request id
    of the logger; the 'Authorization' header is 'Bearer ' followed by the
    stored token when [localStorage] holds a non-empty 'access_token', and
    is left as it was otherwise; no other header is touched and the
    browser is only read. *)
Theorem request_carries_bearer_iff_token
    (rid : string) (config : Http.Config) (w : Browser.Window) :
  let o := Http.on_request rid config w in
  final o = w
  /\ effects o = []
  /\ exists c,
       fst (fst o) = Normal c
       /\ Http.method c = Http.method config
       /\ Http.url c = Http.url config
       /\ Http.requestId c = Some rid
       /\ (forall h, h <> "Authorization" -> Http.headers c h = Http.headers config h)
       /\ (forall t, Browser.localStorage w "access_token" = Some t -> t <> "" ->
             Http.headers c "Authorization" = Some (String.append "Bearer " t))
       /\ (truthy (Browser.localStorage w "access_token") = false ->
           Http.headers c "Authorization" = Http.headers config "Authorization").
Proof.
  cbv zeta. run_session.
  destruct (Browser.localStorage w "access_token") as [t |] eqn:Ht.
  - unfold truthy. destruct (String.eqb_spec t "") as [-> | Hne]; cbn.
    + split; [reflexivity |]. split; [reflexivity |].
      eexists. split; [reflexivity |]. cbn.
      repeat split; try reflexivity.
      intros t' H Hne. injection H as <-. contradiction.
    + split; [reflexivity |]. split; [reflexivity |].
      eexists. split; [reflexivity |]. cbn.
      split; [reflexivity |]. split; [reflexivity |]. split; [reflexivity |].
      split; [| split].
      * intros h Hh. destruct (String.eqb_spec h "Authorization");
          [contradiction | reflexivity].
      * intros t' H _. injection H as <-. reflexivity.
      * intros H. discriminate H.
  - cbn. split; [reflexivity |]. split; [reflexivity |].
    eexists. split; [reflexivity |]. cbn.
    repeat split; try reflexivity.
    intros t' H. discriminate H.
Qed.

Lemma request_carries_bearer_iff_token_witness :
  exists c,
    fst (fst (Http.on_request "r1" Samples.plain_config Samples.signed_in_window))
    = Normal c
    /\ Http.headers c "Authorization" = Some "Bearer t0k3n".
Proof.
  destruct (request_carries_bearer_iff_token "r1" Samples.plain_config
              Samples.signed_in_window) as [_ [_ [c [Hc [_ [_ [_ [_ [Hb _]]]]]]]]].
  exists c. split; [exact Hc |].
  apply (Hb "t0k3n"); [reflexivity | discriminate].
Defined.

(** X29. A 401 ends the session in the browser: the response interceptor
    always rejects with the error it received; on status 401 it removes
    'access_token' and the portal's profile key from [localStorage],
    leaves the other keys alone and sets the location to '/login', after
    which the request interceptor adds no bearer token; on any other
    status, or without a response, the browser is untouched. *)
Theorem unauthorized_response_ends_session
    (profile : string) (f : Http.Failure) (w : Browser.Window) :
  let o := Http.on_response_error profile f w in
  fst (fst o) = Throw (Http.error f)
  /\ effects o = []
  /\ (Http.status f = Some 401%Z ->
      Browser.localStorage (final o) "access_token" = None
      /\ Browser.localStorage (final o) profile = None
      /\ (forall k, k <> "access_token" -> k <> profile ->
            Browser.localStorage (final o) k = Browser.localStorage w k)
      /\ Browser.location (final o) = "/login"
      /\ forall rid config,
           fst (fst (Http.on_request rid config (final o)))
           = Normal (Http.mkConfig (Http.method config) (Http.url config)
                       (Http.headers config) (Some rid)))
  /\ (Http.status f <> Some 401%Z -> final o = w).
Proof.
  cbv zeta. run_session.
  assert (Hcases : Http.status f = Some 401%Z \/ Http.status f <> Some 401%Z).
  { destruct (Http.status f) as [z |]; [| right; discriminate].
    destruct (Z.eq_dec z 401) as [-> | Hne]; [left; reflexivity |].
    right. intros H. injection H as H. contradiction. }
  destruct Hcases as [H401 | Hother].
  - rewrite H401. cbn.
    split; [reflexivity |]. split; [reflexivity |]. split; [| intros H; contradiction].
    intros _.
    assert (Htok : Browser.removeItem profile
                     (Browser.removeItem "access_token" (Browser.localStorage w))
                     "access_token" = None).
    { unfold Browser.removeItem.
      destruct (String.eqb "access_token" profile); [reflexivity |].
      rewrite String.eqb_refl. reflexivity. }
    split; [exact Htok |].
    split; [apply removeItem_same |].
    split; [intros k H1 H2; rewrite !removeItem_other by assumption; reflexivity |].
    split; [reflexivity |].
    intros rid config. rewrite Htok. reflexivity.
  - split; [| split; [| split; [intros H; contradiction |]]].
    + destruct (Http.status f) as [z |]; [| reflexivity].
      destruct z as [| p | p]; try reflexivity.
      repeat (destruct p as [p | p |]; try reflexivity).
    + destruct (Http.status f) as [z |]; [| reflexivity].
      destruct z as [| p | p]; try reflexivity.
      repeat (destruct p as [p | p |]; try reflexivity).
    + intros _.
      destruct (Http.status f) as [z |]; [| destruct w; reflexivity].
      destruct z as [| p | p]; try (destruct w; reflexivity).
      repeat (destruct p as [p | p |]; try (destruct w; reflexivity)).
      exfalso. apply Hother. reflexivity.
Qed.

Lemma unauthorized_response_ends_session_witness :
  Browser.location
    (final (Http.on_response_error "employee"
              {| Http.status := Some 401%Z;
                 Http.error := {| response_data_error := Some "Token expired" |} |}
              Samples.signed_in_window))
  = "/login"
  /\ final (Http.on_response_error "employee"
              {| Http.status := Some 422%Z;
                 Http.error := {| response_data_error := None |} |}
              Samples.signed_in_window)
     = Samples.signed_in_window.
Proof.
  destruct (unauthorized_response_ends_session "employee"
              {| Http.status := Some 401%Z;
                 Http.error := {| response_data_error := Some "Token expired" |} |}
              Samples.signed_in_window) as [_ [_ [H401 _]]].
  destruct (unauthorized_response_ends_session "employee"
              {| Http.status := Some 422%Z;
                 Http.error := {| response_data_error := None |} |}
              Samples.signed_in_window) as [_ [_ [_ Hother]]].
  split.
  - exact (proj1 (proj2 (proj2 (proj2 (H401 eq_refl))))).
  - apply Hother. discriminate.
Defined.
